(** * MindfulMate: the session/auth and persistence layer of [server.ts]

    A shallow embedding of the Express application of [src/server.ts]:
    the three SQLite tables, the [authenticateToken] middleware and the
    nine route handlers, as functions that pass the database explicitly.

    Modelling boundary.
    - The database handle [db] is a process-wide singleton; here it is a
      value of type [database] threaded through every handler.
    - [bcryptjs], [jsonwebtoken] are external libraries: they are the
      fields of the class [Libs].  Nothing is assumed about them.
    - Request bodies are the JSON objects the client of [App.tsx] sends:
      every field the handlers destructure is a string.  Keys a handler
      does not read are kept in [extras].  A string is the UTF-8 text that
      SQLite stores; bodies with missing or non-string fields, and
      JavaScript strings that are not well-formed UTF-16, are outside the
      model.
    - [CURRENT_TIMESTAMP], [Date.now()] and the bcrypt salt are inputs of a
      request, gathered in [ctx].
    - The INSERTs into [moods] and [chats] run the foreign-key check on
      [user_id]; the exception they throw is not caught by the handlers
      and is answered by Express with status 500.
    - A [timestamp] column holds the TEXT that SQLite stores, and
      [ORDER BY timestamp ASC] compares it bytewise (BINARY collation),
      which is [String.leb].  SQL leaves the order of rows with equal keys
      open; [order_by] keeps them in table (rowid) order. *)

From Stdlib Require Import ZArith List String Ascii Bool Lia.
From Stdlib Require Import Sorted Permutation.
Import ListNotations.

Open Scope string_scope.
Open Scope Z_scope.

(** ** JSON values sent in responses *)

#[local] Unset Elimination Schemes.
Inductive json : Type :=
| JNull
| JBool (b : bool)
| JNum (n : Z)
| JStr (s : string)
| JArr (items : list json)
| JObj (fields : list (string * json)).
#[local] Set Elimination Schemes.

(** [o[k]] on a JSON object; [None] is JavaScript's [undefined]. *)
Fixpoint assoc (k : string) (fields : list (string * json)) : option json :=
  match fields with
  | [] => None
  | (k', v) :: rest => if (k' =? k)%string then Some v else assoc k rest
  end.

Definition json_get (k : string) (j : json) : option json :=
  match j with
  | JObj fields => assoc k fields
  | _ => None
  end.

(** [Object.keys(j)] *)
Definition json_keys (j : json) : list string :=
  match j with
  | JObj fields => map fst fields
  | _ => []
  end.

(** ** The three tables *)

Record user_row : Type := mk_user
  { u_id : Z; u_email : string; u_password : string; u_name : string }.

Record mood_row : Type := mk_mood
  { m_id : Z; m_user_id : Z; m_mood : string; m_timestamp : string }.

Record chat_row : Type := mk_chat
  { c_id : Z; c_user_id : Z; c_role : string; c_content : string;
    c_timestamp : string }.

(** A table is its rows in rowid order together with the counter that
    [AUTOINCREMENT] keeps in [sqlite_sequence]. *)
Record database : Type := mk_db
  { users : list user_row; users_seq : Z;
    moods : list mood_row; moods_seq : Z;
    chats : list chat_row; chats_seq : Z }.

(** [CREATE TABLE IF NOT EXISTS] on a fresh file. *)
Definition empty_db : database :=
  {| users := []; users_seq := 0;
     moods := []; moods_seq := 0;
     chats := []; chats_seq := 0 |}.

(** [INTEGER PRIMARY KEY AUTOINCREMENT]: one more than the largest rowid
    the table has ever held. *)
Definition fresh_rowid (seq : Z) (ids : list Z) : Z :=
  fold_right Z.max seq ids + 1.

(** ** [ORDER BY key ASC] *)

Section OrderBy.
Context {A : Type} (key : A -> string).

Fixpoint insert_by (x : A) (l : list A) : list A :=
  match l with
  | [] => [x]
  | y :: rest =>
      if (key x <=? key y)%string then x :: y :: rest
      else y :: insert_by x rest
  end.

Definition order_by (l : list A) : list A :=
  fold_right insert_by [] l.

(** Non-decreasing in [key]. *)
Definition key_le (a b : A) : Prop := (key a <=? key b)%string = true.
End OrderBy.

(** ** Statements run by the handlers *)

(** [INSERT INTO users (email, password, name) VALUES (?, ?, ?)].
    [email TEXT UNIQUE]: the insert throws when a row already holds the
    email, and the statement leaves the table and its sequence as they
    were.  On success the result is the new state and [lastInsertRowid]. *)
Definition insert_user (db : database) (email password name : string)
  : option (database * Z) :=
  if existsb (fun u => (u_email u =? email)%string) (users db) then None
  else
    let id := fresh_rowid (users_seq db) (map u_id (users db)) in
    Some ({| users := users db ++ [mk_user id email password name];
             users_seq := id;
             moods := moods db; moods_seq := moods_seq db;
             chats := chats db; chats_seq := chats_seq db |}, id).

(** [SELECT * FROM users WHERE email = ?] with [.get]: the first row. *)
Definition select_user_by_email (db : database) (email : string)
  : option user_row :=
  find (fun u => (u_email u =? email)%string) (users db).

(** [FOREIGN KEY(user_id) REFERENCES users(id)]: some row of [users] has
    this id.  The SQLite that better-sqlite3 ships enforces foreign keys. *)
Definition user_exists (db : database) (uid : Z) : bool :=
  existsb (fun u => u_id u =? uid) (users db).

(** The store once a row is written to [moods]; the timestamp is the
    column default [CURRENT_TIMESTAMP]. *)
Definition add_mood (db : database) (now : string) (uid : Z) (mood : string)
  : database :=
  let id := fresh_rowid (moods_seq db) (map m_id (moods db)) in
  {| users := users db; users_seq := users_seq db;
     moods := moods db ++ [mk_mood id uid mood now]; moods_seq := id;
     chats := chats db; chats_seq := chats_seq db |}.

(** The store once a row is written to [chats]. *)
Definition add_chat (db : database) (now : string) (uid : Z)
  (role content : string) : database :=
  let id := fresh_rowid (chats_seq db) (map c_id (chats db)) in
  {| users := users db; users_seq := users_seq db;
     moods := moods db; moods_seq := moods_seq db;
     chats := chats db ++ [mk_chat id uid role content now]; chats_seq := id |}.

(** [INSERT INTO moods (user_id, mood) VALUES (?, ?)].  The statement
    throws [FOREIGN KEY constraint failed] when [user_id] is no row of
    [users], and then leaves the table and its sequence as they were:
    [None]. *)
Definition insert_mood (db : database) (now : string) (uid : Z) (mood : string)
  : option database :=
  if user_exists db uid then Some (add_mood db now uid mood) else None.

(** [INSERT INTO chats (user_id, role, content) VALUES (?, ?, ?)], with the
    same foreign key. *)
Definition insert_chat (db : database) (now : string) (uid : Z)
  (role content : string) : option database :=
  if user_exists db uid then Some (add_chat db now uid role content) else None.

(** [SELECT * FROM moods WHERE user_id = ? ORDER BY timestamp ASC]. *)
Definition select_moods (db : database) (uid : Z) : list mood_row :=
  order_by m_timestamp (filter (fun m => m_user_id m =? uid) (moods db)).

(** [SELECT * FROM chats WHERE user_id = ? ORDER BY timestamp ASC]. *)
Definition select_chats (db : database) (uid : Z) : list chat_row :=
  order_by c_timestamp (filter (fun c => c_user_id c =? uid) (chats db)).

(** [DELETE FROM chats WHERE user_id = ?]. *)
Definition delete_chats (db : database) (uid : Z) : database :=
  {| users := users db; users_seq := users_seq db;
     moods := moods db; moods_seq := moods_seq db;
     chats := filter (fun c => negb (c_user_id c =? uid)) (chats db);
     chats_seq := chats_seq db |}.

(** Rows as [res.json] sends them: one key per column of the table. *)
Definition json_of_mood (m : mood_row) : json :=
  JObj [("id", JNum (m_id m)); ("user_id", JNum (m_user_id m));
        ("mood", JStr (m_mood m)); ("timestamp", JStr (m_timestamp m))].

Definition json_of_chat (c : chat_row) : json :=
  JObj [("id", JNum (c_id c)); ("user_id", JNum (c_user_id c));
        ("role", JStr (c_role c)); ("content", JStr (c_content c));
        ("timestamp", JStr (c_timestamp c))].

(** ** Requests, responses, libraries *)

(** What [jwt.verify] hands to its callback on success: the signed payload
    [{id, email, name}] and the [iat] that [jwt.sign] adds. *)
Record session : Type := mk_session
  { s_id : Z; s_email : string; s_name : string; s_iat : Z }.

Definition json_of_session (s : session) : json :=
  JObj [("id", JNum (s_id s)); ("email", JStr (s_email s));
        ("name", JStr (s_name s)); ("iat", JNum (s_iat s))].

Class Libs : Type :=
  { (** [bcrypt.hash(password, rounds)], with the salt it draws *)
    bcrypt_hash : string -> Z -> string -> string;
    (** [bcrypt.compare(password, hash)] *)
    bcrypt_compare : string -> string -> bool;
    (** [jwt.sign(payload, secret)]; the payload carries the issue time *)
    jwt_sign : session -> string -> string;
    (** [jwt.verify(token, secret, callback)]: [None] is [err] *)
    jwt_verify : string -> string -> option session }.

(** Bodies of the POST requests. *)
Record auth_form : Type := mk_auth_form
  { email : string; password : string; name : string }.

Record mood_body : Type := mk_mood_body
  { mood : string; mood_extras : list (string * json) }.

Record chat_body : Type := mk_chat_body
  { role : string; content : string; chat_extras : list (string * json) }.

(** Method and path of a request, with its body. *)
Inductive api_call : Type :=
| PostSignup (b : auth_form)
| PostLogin (b : auth_form)
| PostLogout
| GetMe
| GetMoods
| PostMoods (b : mood_body)
| GetChats
| PostChats (b : chat_body)
| DeleteChats.

(** [req.cookies.token] ([None] when the cookie is not sent) and the call. *)
Record request : Type := mk_request
  { cookie_token : option string; call : api_call }.

(** Per-request inputs from outside the program. *)
Record ctx : Type := mk_ctx
  { now : string;   (** [CURRENT_TIMESTAMP] *)
    clock : Z;      (** [Date.now()] in seconds, for [iat] *)
    salt : string   (** the salt [bcrypt.hash] generates *) }.

Inductive cookie_op : Type :=
| SetCookie (cname value : string) (httpOnly secure : bool) (sameSite : string)
| ClearCookie (cname : string).

Record response : Type := mk_response
  { status : Z; payload : json; cookie_ops : list cookie_op }.

(** [res.json(j)] and [res.status(n).json({ error: msg })]. *)
Definition res_json (j : json) : response :=
  {| status := 200; payload := j; cookie_ops := [] |}.

Definition res_error (n : Z) (msg : string) : response :=
  {| status := n; payload := JObj [("error", JStr msg)]; cookie_ops := [] |}.

Definition success_ack : response := res_json (JObj [("success", JBool true)]).

(** An exception that leaves a handler reaches the default error handler
    of Express: status 500 and an HTML page (the stack of the error, or the
    bare status text in production).  The page is not JSON and is not
    modelled: [payload] is [JNull] here. *)
Definition res_uncaught : response :=
  {| status := 500; payload := JNull; cookie_ops := [] |}.

Section Server.
Context {L : Libs}.
(** [process.env.JWT_SECRET] *)
Variable env_JWT_SECRET : option string.

(** [process.env.JWT_SECRET || "super-secret-key"]: an empty string is
    falsy. *)
Definition JWT_SECRET : string :=
  match env_JWT_SECRET with
  | Some s => if (s =? "")%string then "super-secret-key" else s
  | None => "super-secret-key"
  end.

(** *** Auth middleware *)

Inductive middleware_result : Type :=
| Respond (r : response)      (** the chain stops with this response *)
| Next (user : session).      (** [req.user = user; next()] *)

Definition authenticateToken (req : request) : middleware_result :=
  match cookie_token req with
  | None => Respond (res_error 401 "Unauthorized")
  | Some token =>
      if (token =? "")%string then Respond (res_error 401 "Unauthorized")
      else
        match jwt_verify token JWT_SECRET with
        | None => Respond (res_error 403 "Forbidden")
        | Some user => Next user
        end
  end.

(** *** Auth routes *)

Definition profile (id : Z) (e n : string) : json :=
  JObj [("id", JNum id); ("email", JStr e); ("name", JStr n)].

Definition session_cookie (token : string) : cookie_op :=
  SetCookie "token" token true true "none".

Definition signup (b : auth_form) (c : ctx) (db : database)
  : database * response :=
  let hashedPassword := bcrypt_hash (password b) 10 (salt c) in
  match insert_user db (email b) hashedPassword (name b) with
  | Some (db', id) =>
      let token :=
        jwt_sign (mk_session id (email b) (name b) (clock c)) JWT_SECRET in
      (db', {| status := 200;
               payload := profile id (email b) (name b);
               cookie_ops := [session_cookie token] |})
  | None => (db, res_error 400 "Email already exists")
  end.

Definition invalid_credentials : response :=
  res_error 401 "Invalid credentials".

(** [if (!user || !(await bcrypt.compare(...))) return 401]: one return
    statement serves both disjuncts. *)
Definition login (b : auth_form) (c : ctx) (db : database)
  : database * response :=
  match select_user_by_email db (email b) with
  | None => (db, invalid_credentials)
  | Some user =>
      if negb (bcrypt_compare (password b) (u_password user))
      then (db, invalid_credentials)
      else
        let token :=
          jwt_sign (mk_session (u_id user) (u_email user) (u_name user)
                      (clock c)) JWT_SECRET in
        (db, {| status := 200;
                payload := profile (u_id user) (u_email user) (u_name user);
                cookie_ops := [session_cookie token] |})
  end.

Definition logout (db : database) : database * response :=
  (db, {| status := 200;
          payload := JObj [("message", JStr "Logged out")];
          cookie_ops := [ClearCookie "token"] |}).

(** *** Handlers behind the middleware; [user] is [req.user] *)

Definition me (user : session) (db : database) : database * response :=
  (db, res_json (json_of_session user)).

Definition get_moods (user : session) (db : database)
  : database * response :=
  (db, res_json (JArr (map json_of_mood (select_moods db (s_id user))))).

Definition post_moods (user : session) (b : mood_body) (c : ctx)
  (db : database) : database * response :=
  match insert_mood db (now c) (s_id user) (mood b) with
  | Some db' => (db', success_ack)
  | None => (db, res_uncaught)
  end.

Definition get_chats (user : session) (db : database)
  : database * response :=
  (db, res_json (JArr (map json_of_chat (select_chats db (s_id user))))).

Definition post_chats (user : session) (b : chat_body) (c : ctx)
  (db : database) : database * response :=
  match insert_chat db (now c) (s_id user) (role b) (content b) with
  | Some db' => (db', success_ack)
  | None => (db, res_uncaught)
  end.

Definition delete_chats_handler (user : session) (db : database)
  : database * response :=
  (delete_chats db (s_id user), success_ack).

(** *** The routing table *)

Definition is_protected (a : api_call) : bool :=
  match a with
  | PostSignup _ | PostLogin _ | PostLogout => false
  | _ => true
  end.

(** [app.METHOD(path, authenticateToken, handler)] *)
Definition protected (handler : session -> database -> database * response)
  (req : request) (db : database) : database * response :=
  match authenticateToken req with
  | Respond r => (db, r)
  | Next user => handler user db
  end.

(** The handler registered for a protected call. *)
Definition handler_of (a : api_call) (c : ctx) (user : session)
  (db : database) : database * response :=
  match a with
  | GetMe => me user db
  | GetMoods => get_moods user db
  | PostMoods b => post_moods user b c db
  | GetChats => get_chats user db
  | PostChats b => post_chats user b c db
  | DeleteChats => delete_chats_handler user db
  | PostSignup b => signup b c db
  | PostLogin b => login b c db
  | PostLogout => logout db
  end.

Definition app (req : request) (c : ctx) (db : database)
  : database * response :=
  match call req with
  | PostSignup b => signup b c db
  | PostLogin b => login b c db
  | PostLogout => logout db
  | GetMe => protected me req db
  | GetMoods => protected get_moods req db
  | PostMoods b => protected (fun user => post_moods user b c) req db
  | GetChats => protected get_chats req db
  | PostChats b => protected (fun user => post_chats user b c) req db
  | DeleteChats => protected delete_chats_handler req db
  end.

End Server.

(** ** A concrete instance, for running the handlers on examples *)

Definition alice : session := mk_session 1 "a@x.com" "A" 1700000000.
Definition bob : session := mk_session 2 "b@x.com" "B" 1700000000.

(** Stand-ins for the two libraries: a hash that appends the salt, and
    two fixed tokens. *)
Definition demo_libs : Libs :=
  {| bcrypt_hash := fun p _ s => p ++ "$" ++ s;
     bcrypt_compare := fun p h => prefix (p ++ "$") h;
     jwt_sign := fun u _ => if s_id u =? 1 then "tok-alice" else "tok-bob";
     jwt_verify := fun t _ =>
       if (t =? "tok-alice")%string then Some alice
       else if (t =? "tok-bob")%string then Some bob
       else None |}.

Definition demo_ctx : ctx :=
  {| now := "2026-01-05 09:30:00"; clock := 1767605400; salt := "s4lt" |}.

Definition later_ctx : ctx :=
  {| now := "2026-01-05 09:31:00"; clock := 1767605460; salt := "p3pp3r" |}.

(** A store with one registered user. *)
Definition one_user_db : database :=
  {| users := [mk_user 1 "a@x.com" "pw$s4lt" "A"]; users_seq := 1;
     moods := []; moods_seq := 0;
     chats := []; chats_seq := 0 |}.

(** A store with two users whose rows were not written in timestamp
    order. *)
Definition busy_db : database :=
  {| users := [mk_user 1 "a@x.com" "pw$s4lt" "A";
               mk_user 2 "b@x.com" "pw$p3pp3r" "B"];
     users_seq := 2;
     moods := [mk_mood 1 1 "Happy" "2026-01-05 09:31:00";
               mk_mood 2 1 "Sad" "2026-01-05 09:30:00"];
     moods_seq := 2;
     chats := [mk_chat 1 1 "user" "hi" "2026-01-05 09:31:00";
               mk_chat 2 2 "user" "yo" "2026-01-05 09:30:30";
               mk_chat 3 1 "bot" "hello" "2026-01-05 09:30:00"];
     chats_seq := 3 |}.

(** [JWT_SECRET] is not set in the environment. *)
Definition demo_env : option string := None.

Definition as_alice (a : api_call) : request := mk_request (Some "tok-alice") a.
Definition as_bob (a : api_call) : request := mk_request (Some "tok-bob") a.

(** The body [App.tsx] posts for a bot turn: the whole [Message]. *)
Definition bot_turn : chat_body :=
  mk_chat_body "bot" "Take a slow breath."
    [("timestamp", JStr "2026-01-05T09:30:00.000Z"); ("mood", JStr "Stressed")].

(** ** Sequences of requests *)

(** The routes that run an INSERT or a DELETE. *)
Definition writes (a : api_call) : bool :=
  match a with
  | PostSignup _ | PostMoods _ | PostChats _ | DeleteChats => true
  | _ => false
  end.

(** Some row of [users] has this id. *)
Definition registered (db : database) (uid : Z) : Prop :=
  exists u, In u (users db) /\ u_id u = uid.

(** What [AUTOINCREMENT] maintains on a table: the rowids in it are
    distinct, start at 1 and do not exceed the sequence. *)
Definition rowids_ok (seq : Z) (ids : list Z) : Prop :=
  0 <= seq /\ NoDup ids /\ Forall (fun i => 1 <= i <= seq) ids.

Definition tables_ok (db : database) : Prop :=
  rowids_ok (users_seq db) (map u_id (users db))
  /\ rowids_ok (moods_seq db) (map m_id (moods db))
  /\ rowids_ok (chats_seq db) (map c_id (chats db)).

Section Traces.
Context {L : Libs} (env : option string).

(** The session a request carries, if any, names a registered user.  The
    tokens this server signs are for rows of [users], and no statement
    deletes from [users]. *)
Definition known_caller (req : request) (db : database) : Prop :=
  forall u, authenticateToken env req = Next u -> registered db (s_id u).

(** [steps db db']: the server, started on [db], has answered a finite
    sequence of requests of known callers and holds [db']. *)
Inductive steps : database -> database -> Prop :=
| steps_refl db : steps db db
| steps_step db db' req c :
    steps db db' -> known_caller req db' ->
    steps db (fst (app env req c db')).

End Traces.

(** The store after a short session: B signs up, A and B post one message
    each, A logs a mood. *)
Definition two_user_db : database :=
  fst (app (L:=demo_libs) demo_env
         (mk_request None (PostSignup (mk_auth_form "b@x.com" "pw" "B")))
         later_ctx one_user_db).

Definition talk_db : database :=
  fst (app (L:=demo_libs) demo_env
         (as_alice (PostMoods (mk_mood_body "Happy" []))) later_ctx
         (fst (app (L:=demo_libs) demo_env
                 (as_bob (PostChats (mk_chat_body "user" "yo" []))) later_ctx
                 (fst (app (L:=demo_libs) demo_env
                         (as_alice (PostChats (mk_chat_body "user" "hi" [])))
                         demo_ctx two_user_db))))).

(** A request context whose clock is the issue time of [alice]'s token. *)
Definition issue_ctx : ctx :=
  {| now := "2023-11-14 22:13:20"; clock := 1700000000; salt := "s4lt" |}.

(** * Properties *)

(** ** Bytewise order on TEXT *)

Lemma ascii_compare_refl (a : ascii) : Ascii.compare a a = Eq.
Proof. unfold Ascii.compare. apply N.compare_refl. Qed.

Lemma ascii_compare_lt (a b : ascii) :
  Ascii.compare a b = Lt <-> (N_of_ascii a < N_of_ascii b)%N.
Proof. unfold Ascii.compare. now rewrite N.compare_lt_iff. Qed.

Lemma string_compare_refl (s : string) : (s ?= s)%string = Eq.
Proof.
  induction s as [|a s IH]; simpl; [reflexivity|].
  now rewrite ascii_compare_refl.
Qed.

Lemma string_leb_refl (s : string) : (s <=? s)%string = true.
Proof. unfold String.leb. now rewrite string_compare_refl. Qed.

Lemma string_leb_trans (s1 s2 s3 : string) :
  (s1 <=? s2)%string = true -> (s2 <=? s3)%string = true ->
  (s1 <=? s3)%string = true.
Proof.
  unfold String.leb. revert s2 s3.
  induction s1 as [|a1 s1 IH]; intros [|a2 s2] [|a3 s3]; simpl;
    try congruence.
  destruct (Ascii.compare a1 a2) eqn:E12;
    destruct (Ascii.compare a2 a3) eqn:E23; try congruence.
  - apply Ascii.compare_eq_iff in E12, E23. subst.
    rewrite ascii_compare_refl. apply IH.
  - apply Ascii.compare_eq_iff in E12. subst. now rewrite E23.
  - apply Ascii.compare_eq_iff in E23. subst. now rewrite E12.
  - apply ascii_compare_lt in E12; apply ascii_compare_lt in E23.
    assert (E : Ascii.compare a1 a3 = Lt)
      by (apply ascii_compare_lt; eapply N.lt_trans; eassumption).
    now rewrite E.
Qed.

(** ** [order_by] sorts and only reorders *)

Section OrderByFacts.
Context {A : Type} (key : A -> string).

Lemma insert_by_perm (x : A) (l : list A) :
  Permutation (x :: l) (insert_by key x l).
Proof.
  induction l as [|y l IH]; simpl; [reflexivity|].
  destruct (key x <=? key y)%string; [reflexivity|].
  rewrite perm_swap. now constructor.
Qed.

Lemma order_by_perm (l : list A) : Permutation l (order_by key l).
Proof.
  induction l as [|x l IH]; simpl; [constructor|].
  rewrite <- insert_by_perm. now constructor.
Qed.

Lemma order_by_In (x : A) (l : list A) : In x (order_by key l) <-> In x l.
Proof.
  split; apply Permutation_in;
    [symmetry|]; apply order_by_perm.
Qed.

Lemma key_le_trans (a b c : A) :
  key_le key a b -> key_le key b c -> key_le key a c.
Proof. unfold key_le. apply string_leb_trans. Qed.

Lemma insert_by_sorted (x : A) (l : list A) :
  StronglySorted (key_le key) l ->
  StronglySorted (key_le key) (insert_by key x l).
Proof.
  induction 1 as [|y l Hl IH Hy]; simpl.
  - repeat constructor.
  - destruct (key x <=? key y)%string eqn:E.
    + constructor; [now constructor|].
      constructor; [exact E|].
      eapply Forall_impl; [|exact Hy].
      intros z Hz. eapply key_le_trans; eassumption.
    + constructor; [exact IH|].
      eapply Permutation_Forall; [apply insert_by_perm|].
      constructor; [|exact Hy].
      destruct (String.leb_total (key x) (key y)) as [H|H];
        [congruence|exact H].
Qed.

Lemma order_by_sorted (l : list A) :
  StronglySorted (key_le key) (order_by key l).
Proof.
  induction l as [|x l IH]; simpl; [constructor|].
  now apply insert_by_sorted.
Qed.

(** A list that is already in order is returned as it is. *)
Lemma order_by_fixed (l : list A) :
  StronglySorted (key_le key) l -> order_by key l = l.
Proof.
  induction 1 as [|x l Hl IH Hx]; simpl; [reflexivity|].
  rewrite IH. destruct l as [|y l]; [reflexivity|].
  simpl. inversion Hx as [|? ? Hxy _]; subst.
  unfold key_le in Hxy. now rewrite Hxy.
Qed.
End OrderByFacts.

(** ** The handlers *)

Section ServerFacts.
Context {L : Libs} (env : option string).

Lemma protected_next handler req db user :
  authenticateToken env req = Next user ->
  protected env handler req db = handler user db.
Proof. unfold protected. now intros ->. Qed.

Lemma protected_respond handler req db r :
  authenticateToken env req = Respond r ->
  protected env handler req db = (db, r).
Proof. unfold protected. now intros ->. Qed.

Lemma app_next req c db user :
  is_protected (call req) = true ->
  authenticateToken env req = Next user ->
  app env req c db = handler_of env (call req) c user db.
Proof.
  intros Hp Ha. unfold app.
  destruct (call req); simpl in Hp; try discriminate;
    now rewrite (protected_next _ _ _ _ Ha).
Qed.

Lemma app_respond req c db r :
  is_protected (call req) = true ->
  authenticateToken env req = Respond r ->
  app env req c db = (db, r).
Proof.
  intros Hp Ha. unfold app.
  destruct (call req); simpl in Hp; try discriminate;
    now rewrite (protected_respond _ _ _ _ Ha).
Qed.

Lemma existsb_email_true db e :
  (exists u, In u (users db) /\ u_email u = e) ->
  existsb (fun u => (u_email u =? e)%string) (users db) = true.
Proof.
  intros [u [Hin He]]. apply existsb_exists. exists u.
  split; [exact Hin|]. now apply String.eqb_eq.
Qed.

Lemma existsb_email_false db e :
  (forall u, In u (users db) -> u_email u <> e) ->
  existsb (fun u => (u_email u =? e)%string) (users db) = false.
Proof.
  intros H. destruct (existsb _ _) eqn:E; [|reflexivity].
  apply existsb_exists in E. destruct E as [u [Hin He]].
  apply String.eqb_eq in He. now elim (H u Hin).
Qed.

(** C1. POST /api/auth/login: a request whose email is not registered
    and a request whose email is registered but whose password does not
    match the stored hash get the same response, status 401 with body
    [{error: "Invalid credentials"}] and no cookie, and neither changes
    the store. *)
Theorem login_failures_identical db t1 t2 c1 c2 b1 b2 u :
  select_user_by_email db (email b1) = None ->
  select_user_by_email db (email b2) = Some u ->
  bcrypt_compare (password b2) (u_password u) = false ->
  app env (mk_request t1 (PostLogin b1)) c1 db
    = (db, {| status := 401;
              payload := JObj [("error", JStr "Invalid credentials")];
              cookie_ops := [] |})
  /\ app env (mk_request t2 (PostLogin b2)) c2 db
    = app env (mk_request t1 (PostLogin b1)) c1 db.
Proof.
  intros Hnone Hsome Hcmp. unfold app, login; simpl.
  rewrite Hnone, Hsome, Hcmp. split; reflexivity.
Qed.

(** C2. POST /api/auth/signup: when a row of [users] already holds the
    email, the response is 400 [{error: "Email already exists"}] and the
    store is unchanged; when no row holds it, the response is 200 with
    the profile and the session cookie, and [users] gains exactly one
    row, the new user's, at the end. *)
Theorem signup_duplicate_or_one_row db t c b :
  ((exists u, In u (users db) /\ u_email u = email b) ->
     app env (mk_request t (PostSignup b)) c db
       = (db, {| status := 400;
                 payload := JObj [("error", JStr "Email already exists")];
                 cookie_ops := [] |}))
  /\ ((forall u, In u (users db) -> u_email u <> email b) ->
       exists db' id token,
         app env (mk_request t (PostSignup b)) c db
           = (db', {| status := 200;
                      payload := JObj [("id", JNum id);
                                       ("email", JStr (email b));
                                       ("name", JStr (name b))];
                      cookie_ops :=
                        [SetCookie "token" token true true "none"] |})
         /\ users db'
              = (users db
                 ++ [mk_user id (email b)
                       (bcrypt_hash (password b) 10 (salt c)) (name b)])%list
         /\ List.length (users db') = S (List.length (users db))
         /\ moods db' = moods db /\ chats db' = chats db).
Proof.
  split; intros H; unfold app, signup, insert_user; simpl.
  - now rewrite (existsb_email_true _ _ H).
  - rewrite (existsb_email_false _ _ H).
    eexists _, _, _. split; [reflexivity|]. simpl.
    repeat split. rewrite length_app. simpl. lia.
Qed.

(** C3, as the code has it. For every protected call: without a token
    cookie (absent or empty) the response is 401 [{error:
    "Unauthorized"}]; with a token that [jwt.verify] rejects it is 403
    [{error: "Forbidden"}]; in both cases the store is untouched and the
    response is the same whatever handler is registered behind the
    middleware; with a token that verifies, the handler of the route runs
    with the decoded session as [req.user]. *)
Theorem protected_gate req c db :
  is_protected (call req) = true ->
  ((cookie_token req = None \/ cookie_token req = Some "") ->
     app env req c db = (db, res_error 401 "Unauthorized")
     /\ forall h, protected env h req db
                  = (db, res_error 401 "Unauthorized"))
  /\ (forall token,
        cookie_token req = Some token -> token <> "" ->
        jwt_verify token (JWT_SECRET env) = None ->
        app env req c db = (db, res_error 403 "Forbidden")
        /\ forall h, protected env h req db
                     = (db, res_error 403 "Forbidden"))
  /\ (forall token user,
        cookie_token req = Some token -> token <> "" ->
        jwt_verify token (JWT_SECRET env) = Some user ->
        app env req c db = handler_of env (call req) c user db).
Proof.
  intros Hp. split; [|split].
  - intros Hc.
    assert (Ha : authenticateToken env req
                 = Respond (res_error 401 "Unauthorized")).
    { unfold authenticateToken. destruct Hc as [-> | ->]; reflexivity. }
    split; [now apply app_respond|].
    intros h. now apply protected_respond.
  - intros token Hc Hne Hv.
    assert (Ha : authenticateToken env req
                 = Respond (res_error 403 "Forbidden")).
    { unfold authenticateToken. rewrite Hc.
      apply String.eqb_neq in Hne. now rewrite Hne, Hv. }
    split; [now apply app_respond|].
    intros h. now apply protected_respond.
  - intros token user Hc Hne Hv.
    apply app_next; [exact Hp|].
    unfold authenticateToken. rewrite Hc.
    apply String.eqb_neq in Hne. now rewrite Hne, Hv.
Qed.

(** *** What each protected route does once the middleware lets it through *)

Lemma app_get_chats req c db user :
  authenticateToken env req = Next user -> call req = GetChats ->
  app env req c db
    = (db, res_json (JArr (map json_of_chat (select_chats db (s_id user))))).
Proof.
  intros Ha Hc. unfold app. rewrite Hc. now rewrite (protected_next _ _ _ _ Ha).
Qed.

Lemma app_get_moods req c db user :
  authenticateToken env req = Next user -> call req = GetMoods ->
  app env req c db
    = (db, res_json (JArr (map json_of_mood (select_moods db (s_id user))))).
Proof.
  intros Ha Hc. unfold app. rewrite Hc. now rewrite (protected_next _ _ _ _ Ha).
Qed.

Lemma user_exists_registered db uid :
  user_exists db uid = true <-> registered db uid.
Proof.
  unfold user_exists, registered. rewrite existsb_exists.
  split; intros [u [Hin Hid]]; exists u; split; trivial;
    now apply Z.eqb_eq.
Qed.

Lemma user_exists_unregistered db uid :
  user_exists db uid = false <-> ~ registered db uid.
Proof.
  rewrite <- user_exists_registered.
  destruct (user_exists db uid); split; congruence.
Qed.

Lemma app_post_chats req c db user b :
  authenticateToken env req = Next user -> call req = PostChats b ->
  registered db (s_id user) ->
  app env req c db
    = (add_chat db (now c) (s_id user) (role b) (content b), success_ack).
Proof.
  intros Ha Hc Hr. apply user_exists_registered in Hr.
  unfold app. rewrite Hc, (protected_next _ _ _ _ Ha).
  unfold post_chats, insert_chat. now rewrite Hr.
Qed.

Lemma app_post_chats_unregistered req c db user b :
  authenticateToken env req = Next user -> call req = PostChats b ->
  ~ registered db (s_id user) ->
  app env req c db = (db, res_uncaught).
Proof.
  intros Ha Hc Hr. apply user_exists_unregistered in Hr.
  unfold app. rewrite Hc, (protected_next _ _ _ _ Ha).
  unfold post_chats, insert_chat. now rewrite Hr.
Qed.

Lemma app_post_moods req c db user b :
  authenticateToken env req = Next user -> call req = PostMoods b ->
  registered db (s_id user) ->
  app env req c db
    = (add_mood db (now c) (s_id user) (mood b), success_ack).
Proof.
  intros Ha Hc Hr. apply user_exists_registered in Hr.
  unfold app. rewrite Hc, (protected_next _ _ _ _ Ha).
  unfold post_moods, insert_mood. now rewrite Hr.
Qed.

Lemma app_post_moods_unregistered req c db user b :
  authenticateToken env req = Next user -> call req = PostMoods b ->
  ~ registered db (s_id user) ->
  app env req c db = (db, res_uncaught).
Proof.
  intros Ha Hc Hr. apply user_exists_unregistered in Hr.
  unfold app. rewrite Hc, (protected_next _ _ _ _ Ha).
  unfold post_moods, insert_mood. now rewrite Hr.
Qed.

(** POST /api/chats and POST /api/moods read their own keys of the body
    and nothing else. *)
Lemma app_post_chats_extras req c db b extras :
  call req = PostChats b ->
  app env (mk_request (cookie_token req)
             (PostChats (mk_chat_body (role b) (content b) extras))) c db
  = app env req c db.
Proof. intros Hc. unfold app. simpl. now rewrite Hc. Qed.

Lemma app_post_moods_extras req c db b extras :
  call req = PostMoods b ->
  app env (mk_request (cookie_token req)
             (PostMoods (mk_mood_body (mood b) extras))) c db
  = app env req c db.
Proof. intros Hc. unfold app. simpl. now rewrite Hc. Qed.

Lemma app_delete_chats req c db user :
  authenticateToken env req = Next user -> call req = DeleteChats ->
  app env req c db = (delete_chats db (s_id user), success_ack).
Proof.
  intros Ha Hc. unfold app. rewrite Hc. now rewrite (protected_next _ _ _ _ Ha).
Qed.

(** The middleware reads the cookie only. *)
Lemma authenticateToken_cookie req a :
  authenticateToken env (mk_request (cookie_token req) a)
  = authenticateToken env req.
Proof. reflexivity. Qed.

End ServerFacts.

(** ** The statements, on the tables *)

Lemma select_chats_In db uid r :
  In r (select_chats db uid) <-> In r (chats db) /\ c_user_id r = uid.
Proof.
  unfold select_chats. rewrite order_by_In, filter_In.
  now rewrite Z.eqb_eq.
Qed.

Lemma select_moods_In db uid r :
  In r (select_moods db uid) <-> In r (moods db) /\ m_user_id r = uid.
Proof.
  unfold select_moods. rewrite order_by_In, filter_In.
  now rewrite Z.eqb_eq.
Qed.

Lemma select_chats_nil db uid :
  select_chats db uid = [] ->
  filter (fun r => c_user_id r =? uid) (chats db) = [].
Proof.
  unfold select_chats. intros H.
  apply Permutation_nil. rewrite <- H. symmetry. apply order_by_perm.
Qed.

Lemma chats_add_chat db t uid r c :
  chats (add_chat db t uid r c)
  = (chats db
     ++ [mk_chat (fresh_rowid (chats_seq db) (map c_id (chats db))) uid r c t]
    )%list.
Proof. reflexivity. Qed.

Lemma filter_add_chat db t uid r c who :
  filter (fun x => c_user_id x =? who) (chats (add_chat db t uid r c))
  = (filter (fun x => c_user_id x =? who) (chats db)
     ++ (if uid =? who
         then [mk_chat (fresh_rowid (chats_seq db) (map c_id (chats db)))
                 uid r c t]
         else []))%list.
Proof.
  rewrite chats_add_chat, filter_app. simpl.
  now destruct (uid =? who).
Qed.

Lemma select_chats_delete_own db uid :
  select_chats (delete_chats db uid) uid = [].
Proof.
  unfold select_chats, delete_chats; simpl.
  induction (chats db) as [|r l IH]; simpl; [reflexivity|].
  destruct (c_user_id r =? uid) eqn:E; simpl; [exact IH|].
  now rewrite E.
Qed.

Lemma filter_delete_other db uid who :
  who <> uid ->
  filter (fun r => c_user_id r =? who) (chats (delete_chats db uid))
  = filter (fun r => c_user_id r =? who) (chats db).
Proof.
  intros Hne. unfold delete_chats; simpl.
  induction (chats db) as [|r l IH]; simpl; [reflexivity|].
  destruct (c_user_id r =? uid) eqn:E; simpl.
  - apply Z.eqb_eq in E.
    assert (E' : (c_user_id r =? who) = false) by (apply Z.eqb_neq; lia).
    now rewrite E'.
  - destruct (c_user_id r =? who); [now rewrite IH|exact IH].
Qed.

(** ** Listing, clearing and appending *)

Section DataRoutes.
Context {L : Libs} (env : option string).

(** C4. GET /api/chats and GET /api/moods answer 200 with the caller's
    rows, each of them once, in non-decreasing order of [timestamp]. *)
Theorem lists_in_timestamp_order req c db user :
  authenticateToken env req = Next user ->
  (call req = GetChats ->
     exists rows,
       app env req c db = (db, res_json (JArr (map json_of_chat rows)))
       /\ StronglySorted (key_le c_timestamp) rows
       /\ Permutation rows
            (filter (fun r => c_user_id r =? s_id user) (chats db)))
  /\ (call req = GetMoods ->
       exists rows,
         app env req c db = (db, res_json (JArr (map json_of_mood rows)))
         /\ StronglySorted (key_le m_timestamp) rows
         /\ Permutation rows
              (filter (fun r => m_user_id r =? s_id user) (moods db))).
Proof.
  intros Ha. split; intros Hc.
  - exists (select_chats db (s_id user)). split; [|split].
    + now apply app_get_chats.
    + apply order_by_sorted.
    + symmetry. apply order_by_perm.
  - exists (select_moods db (s_id user)). split; [|split].
    + now apply app_get_moods.
    + apply order_by_sorted.
    + symmetry. apply order_by_perm.
Qed.

(** C5. DELETE /api/chats answers with the ack and leaves in [chats]
    exactly the rows of the other users: a row is in the table afterwards
    iff it was there before and is not the caller's; the caller's listing
    is empty, every other user's listing is what it was, and [users] and
    [moods] are untouched. *)
Theorem clear_removes_own_rows_only req c db user :
  authenticateToken env req = Next user ->
  call req = DeleteChats ->
  exists db',
    app env req c db = (db', success_ack)
    /\ (forall r, In r (chats db')
                  <-> In r (chats db) /\ c_user_id r <> s_id user)
    /\ select_chats db' (s_id user) = []
    /\ (forall who, who <> s_id user ->
          filter (fun r => c_user_id r =? who) (chats db')
          = filter (fun r => c_user_id r =? who) (chats db))
    /\ (forall who, who <> s_id user ->
          select_chats db' who = select_chats db who)
    /\ users db' = users db /\ moods db' = moods db.
Proof.
  intros Ha Hc. exists (delete_chats db (s_id user)).
  split; [now apply app_delete_chats|].
  split; [|split; [|split; [|split]]].
  - intros r. unfold delete_chats; simpl. rewrite filter_In.
    rewrite negb_true_iff, Z.eqb_neq. reflexivity.
  - apply select_chats_delete_own.
  - intros who Hw. now apply filter_delete_other.
  - intros who Hw. unfold select_chats. now rewrite filter_delete_other.
  - split; reflexivity.
Qed.

(** C6. After POST /api/chats by a registered user with a role and a
    content, the same user's GET /api/chats lists a message with that role
    and that content, character for character. *)
Theorem appended_message_is_listed reqP reqG cP cG db user userG b :
  authenticateToken env reqP = Next user -> call reqP = PostChats b ->
  authenticateToken env reqG = Next userG -> call reqG = GetChats ->
  s_id userG = s_id user ->
  registered db (s_id user) ->
  exists db1 rows row,
    app env reqP cP db = (db1, success_ack)
    /\ app env reqG cG db1 = (db1, res_json (JArr (map json_of_chat rows)))
    /\ In row rows
    /\ c_role row = role b /\ c_content row = content b
    /\ json_get "role" (json_of_chat row) = Some (JStr (role b))
    /\ json_get "content" (json_of_chat row) = Some (JStr (content b)).
Proof.
  intros HaP HcP HaG HcG Hid Hreg.
  exists (add_chat db (now cP) (s_id user) (role b) (content b)).
  exists (select_chats
            (add_chat db (now cP) (s_id user) (role b) (content b))
            (s_id userG)).
  exists (mk_chat (fresh_rowid (chats_seq db) (map c_id (chats db)))
            (s_id user) (role b) (content b) (now cP)).
  split; [now apply app_post_chats|].
  split; [now apply app_get_chats|].
  split; [|repeat split].
  apply select_chats_In. split; [|now simpl].
  rewrite chats_add_chat. apply in_or_app. right. now left.
Qed.

(** C7. What GET /api/chats returns to A is owned by A, in every store.
    When A and B are registered users with different ids, A had no
    message, and A and B post one message each, in either order, A's
    listing is A's message alone. *)
Theorem chats_listing_is_private reqA reqB reqG cA cB cG db a b bodyA bodyB :
  authenticateToken env reqA = Next a -> call reqA = PostChats bodyA ->
  authenticateToken env reqB = Next b -> call reqB = PostChats bodyB ->
  authenticateToken env reqG = Next a -> call reqG = GetChats ->
  s_id a <> s_id b ->
  (exists rows,
      app env reqG cG db = (db, res_json (JArr (map json_of_chat rows)))
      /\ forall r, In r rows ->
                   c_user_id r = s_id a /\ c_user_id r <> s_id b)
  /\ (registered db (s_id a) -> registered db (s_id b) ->
      select_chats db (s_id a) = [] ->
      forall db2,
        db2 = fst (app env reqB cB (fst (app env reqA cA db)))
        \/ db2 = fst (app env reqA cA (fst (app env reqB cB db))) ->
        exists row,
          app env reqG cG db2 = (db2, res_json (JArr [json_of_chat row]))
          /\ c_user_id row = s_id a
          /\ c_role row = role bodyA /\ c_content row = content bodyA).
Proof.
  intros HaA HcA HaB HcB HaG HcG Hne. split.
  - exists (select_chats db (s_id a)).
    split; [now apply app_get_chats|].
    intros r Hr. apply select_chats_In in Hr. destruct Hr as [_ Hr].
    split; [exact Hr|congruence].
  - intros HrA HrB Hnil db2 Hdb2. apply select_chats_nil in Hnil.
    assert (Eab : (s_id a =? s_id a) = true) by apply Z.eqb_refl.
    assert (Eba : (s_id b =? s_id a) = false) by (apply Z.eqb_neq; lia).
    destruct Hdb2 as [-> | ->].
    + rewrite (app_post_chats env reqA cA db a bodyA HaA HcA HrA). simpl.
      rewrite (app_post_chats env reqB cB
                 (add_chat db (now cA) (s_id a) (role bodyA) (content bodyA))
                 b bodyB HaB HcB HrB). simpl.
      eexists. rewrite (app_get_chats env reqG cG _ a HaG HcG).
      unfold select_chats.
      rewrite !filter_add_chat, Hnil, Eab, Eba. simpl.
      repeat split.
    + rewrite (app_post_chats env reqB cB db b bodyB HaB HcB HrB). simpl.
      rewrite (app_post_chats env reqA cA
                 (add_chat db (now cB) (s_id b) (role bodyB) (content bodyB))
                 a bodyA HaA HcA HrA). simpl.
      eexists. rewrite (app_get_chats env reqG cG _ a HaG HcG).
      unfold select_chats.
      rewrite !filter_add_chat, Hnil, Eab, Eba. simpl.
      repeat split.
Qed.

(** C8, as the code has it. A chat row has the columns id, user_id,
    role, content and timestamp, and no mood: POST /api/chats reads
    [role] and [content] from the body and nothing else, so a [mood] key
    sent with a bot message changes neither the store nor the response,
    and no message listed by GET /api/chats, from any store, has a
    [mood] key. *)
Theorem chat_rows_carry_no_mood reqP reqG cP cG db db0 user userG b :
  authenticateToken env reqP = Next user -> call reqP = PostChats b ->
  authenticateToken env reqG = Next userG -> call reqG = GetChats ->
  (forall extras,
      app env (mk_request (cookie_token reqP)
                 (PostChats (mk_chat_body (role b) (content b) extras)))
        cP db
      = app env reqP cP db)
  /\ exists items,
      app env reqG cG db0 = (db0, res_json (JArr items))
      /\ Forall (fun j =>
                   json_keys j
                   = ["id"; "user_id"; "role"; "content"; "timestamp"]
                   /\ json_get "mood" j = None) items.
Proof.
  intros HaP HcP HaG HcG. split.
  - intros extras.
    now apply app_post_chats_extras.
  - eexists. split; [eapply app_get_chats; eassumption|].
    apply Forall_forall. intros j Hj.
    apply in_map_iff in Hj. destruct Hj as [r [<- _]].
    split; reflexivity.
Qed.

(** C9, as the code has it. POST /api/chats validates nothing in the
    body, the role included: for every request of a registered user,
    whatever the role (the empty string too), it appends one row stamped
    with the current time and answers with the ack. *)
Theorem post_chats_validates_nothing req c db user b :
  authenticateToken env req = Next user -> call req = PostChats b ->
  registered db (s_id user) ->
  exists db' id,
    app env req c db = (db', success_ack)
    /\ chats db'
       = (chats db
          ++ [mk_chat id (s_id user) (role b) (content b) (now c)])%list
    /\ users db' = users db /\ moods db' = moods db.
Proof.
  intros Ha Hc Hr. eexists _, _.
  split; [eapply app_post_chats; eassumption|].
  split; [apply chats_add_chat|]. split; reflexivity.
Qed.

(** C10. A row that POST /api/chats or POST /api/moods inserts is owned
    by the id of the verified session and stamped by the server.  For every
    verified session: each row of the table afterwards was there before or
    is owned by the caller, the other table is untouched, and the keys of
    the body that the handler does not read (a [user_id], a [timestamp])
    change nothing.  For a registered caller the request is acked and the
    table gains exactly the row [(id, session id, fields of the body,
    current time)]. *)
Theorem inserted_rows_owned_by_session req c db user :
  authenticateToken env req = Next user ->
  (forall b, call req = PostChats b ->
     (forall r, In r (chats (fst (app env req c db))) ->
                In r (chats db) \/ c_user_id r = s_id user)
     /\ moods (fst (app env req c db)) = moods db
     /\ (forall extras,
           app env (mk_request (cookie_token req)
                      (PostChats (mk_chat_body (role b) (content b) extras)))
             c db
           = app env req c db)
     /\ (registered db (s_id user) ->
         exists db' id,
           app env req c db = (db', success_ack)
           /\ chats db'
              = (chats db
                 ++ [mk_chat id (s_id user) (role b) (content b) (now c)]
                )%list))
  /\ (forall b, call req = PostMoods b ->
       (forall r, In r (moods (fst (app env req c db))) ->
                  In r (moods db) \/ m_user_id r = s_id user)
       /\ chats (fst (app env req c db)) = chats db
       /\ (forall extras,
             app env (mk_request (cookie_token req)
                        (PostMoods (mk_mood_body (mood b) extras)))
               c db
             = app env req c db)
       /\ (registered db (s_id user) ->
           exists db' id,
             app env req c db = (db', success_ack)
             /\ moods db'
                = (moods db ++ [mk_mood id (s_id user) (mood b) (now c)])%list)).
Proof.
  intros Ha. split; intros b Hc.
  - assert (Hdb : fst (app env req c db) = db
                  \/ fst (app env req c db)
                     = add_chat db (now c) (s_id user) (role b) (content b)).
    { unfold app. rewrite Hc, (protected_next env _ _ _ _ Ha).
      unfold post_chats, insert_chat.
      destruct (user_exists db (s_id user)); [now right|now left]. }
    split; [|split; [|split]].
    + intros r Hr. destruct Hdb as [E|E]; rewrite E in Hr; [now left|].
      rewrite chats_add_chat in Hr. apply in_app_or in Hr.
      destruct Hr as [Hr|[<-|[]]]; [now left|now right].
    + now destruct Hdb as [-> | ->].
    + intros extras. now apply app_post_chats_extras.
    + intros Hr. eexists _, _.
      split; [eapply app_post_chats; eassumption|apply chats_add_chat].
  - assert (Hdb : fst (app env req c db) = db
                  \/ fst (app env req c db)
                     = add_mood db (now c) (s_id user) (mood b)).
    { unfold app. rewrite Hc, (protected_next env _ _ _ _ Ha).
      unfold post_moods, insert_mood.
      destruct (user_exists db (s_id user)); [now right|now left]. }
    split; [|split; [|split]].
    + intros r Hr. destruct Hdb as [E|E]; rewrite E in Hr; [now left|].
      unfold add_mood in Hr; simpl in Hr. apply in_app_or in Hr.
      destruct Hr as [Hr|[<-|[]]]; [now left|now right].
    + now destruct Hdb as [-> | ->].
    + intros extras. now apply app_post_moods_extras.
    + intros Hr. eexists _, _.
      split; [eapply app_post_moods; eassumption|reflexivity].
Qed.

End DataRoutes.

(** ** The statements at concrete requests *)

Section Examples.
#[local] Existing Instance demo_libs.

Lemma alice_verified (a : api_call) :
  authenticateToken demo_env (as_alice a) = Next alice.
Proof. reflexivity. Qed.

Lemma bob_verified (a : api_call) :
  authenticateToken demo_env (as_bob a) = Next bob.
Proof. reflexivity. Qed.

Lemma alice_in_one_user_db : registered one_user_db 1.
Proof. eexists. split; [left; reflexivity|reflexivity]. Qed.

Lemma alice_in_two_user_db : registered two_user_db 1.
Proof. eexists. split; [left; reflexivity|reflexivity]. Qed.

Lemma bob_in_two_user_db : registered two_user_db 2.
Proof. eexists. split; [right; left; reflexivity|reflexivity]. Qed.

Lemma alice_in_busy_db : registered busy_db 1.
Proof. eexists. split; [left; reflexivity|reflexivity]. Qed.

Lemma bob_in_busy_db : registered busy_db 2.
Proof. eexists. split; [right; left; reflexivity|reflexivity]. Qed.

(** The scenario of the interface description: signup answers 200 with
    [{id: 1, email, name}]; a login with a wrong password answers 401; a
    login with the right one answers 200 with the same profile. *)
Example signup_then_login :
  app demo_env (mk_request None (PostSignup (mk_auth_form "a@x.com" "pw" "A")))
    demo_ctx empty_db
  = (one_user_db,
     {| status := 200; payload := profile 1 "a@x.com" "A";
        cookie_ops := [session_cookie "tok-alice"] |})
  /\ snd (app demo_env
            (mk_request None (PostLogin (mk_auth_form "a@x.com" "nope" "")))
            later_ctx one_user_db)
     = res_error 401 "Invalid credentials"
  /\ snd (app demo_env
            (mk_request None (PostLogin (mk_auth_form "a@x.com" "pw" "")))
            later_ctx one_user_db)
     = {| status := 200; payload := profile 1 "a@x.com" "A";
          cookie_ops := [session_cookie "tok-alice"] |}.
Proof. repeat split. Qed.

(** [ORDER BY] moves the earliest row to the front and keeps rows with
    equal timestamps in table order. *)
Example order_by_reorders :
  select_chats busy_db 1
  = [mk_chat 3 1 "bot" "hello" "2026-01-05 09:30:00";
     mk_chat 1 1 "user" "hi" "2026-01-05 09:31:00"]
  /\ order_by snd [(1, "b"); (2, "a"); (3, "b"); (4, "a")]
     = [(2, "a"); (4, "a"); (1, "b"); (3, "b")].
Proof. split; reflexivity. Qed.

Lemma login_failures_identical_witness :
  app demo_env (mk_request None (PostLogin (mk_auth_form "nobody@x.com" "pw" "")))
    demo_ctx one_user_db
  = (one_user_db,
     {| status := 401;
        payload := JObj [("error", JStr "Invalid credentials")];
        cookie_ops := [] |})
  /\ app demo_env (mk_request None (PostLogin (mk_auth_form "a@x.com" "wrong" "")))
       later_ctx one_user_db
     = app demo_env
         (mk_request None (PostLogin (mk_auth_form "nobody@x.com" "pw" "")))
         demo_ctx one_user_db.
Proof.
  apply (login_failures_identical demo_env one_user_db None None demo_ctx
           later_ctx (mk_auth_form "nobody@x.com" "pw" "")
           (mk_auth_form "a@x.com" "wrong" "")
           (mk_user 1 "a@x.com" "pw$s4lt" "A"));
    reflexivity.
Defined.

Lemma signup_duplicate_or_one_row_witness :
  app demo_env (mk_request None (PostSignup (mk_auth_form "a@x.com" "pw2" "A2")))
    demo_ctx one_user_db
  = (one_user_db,
     {| status := 400;
        payload := JObj [("error", JStr "Email already exists")];
        cookie_ops := [] |})
  /\ exists db' id token,
      app demo_env (mk_request None (PostSignup (mk_auth_form "b@x.com" "pw" "B")))
        later_ctx one_user_db
      = (db', {| status := 200;
                 payload := JObj [("id", JNum id); ("email", JStr "b@x.com");
                                  ("name", JStr "B")];
                 cookie_ops := [SetCookie "token" token true true "none"] |})
      /\ users db'
         = [mk_user 1 "a@x.com" "pw$s4lt" "A";
            mk_user id "b@x.com" "pw$p3pp3r" "B"]
      /\ List.length (users db') = 2%nat
      /\ moods db' = [] /\ chats db' = [].
Proof.
  split.
  - apply (proj1 (signup_duplicate_or_one_row demo_env one_user_db None demo_ctx
                    (mk_auth_form "a@x.com" "pw2" "A2"))).
    exists (mk_user 1 "a@x.com" "pw$s4lt" "A"). split; [now left|reflexivity].
  - refine (proj2 (signup_duplicate_or_one_row demo_env one_user_db None later_ctx
                     (mk_auth_form "b@x.com" "pw" "B")) _).
    intros u [<-|[]]. simpl. discriminate.
Defined.

Lemma invalid_token_is_403_not_401 :
  jwt_verify "forged" (JWT_SECRET demo_env) = None
  /\ app demo_env (mk_request (Some "forged") GetMe) demo_ctx one_user_db
     = (one_user_db,
        {| status := 403; payload := JObj [("error", JStr "Forbidden")];
           cookie_ops := [] |})
  /\ status (snd (app demo_env (mk_request (Some "forged") GetMe) demo_ctx
                    one_user_db)) <> 401.
Proof. split; [reflexivity|]. split; [reflexivity|]. simpl. discriminate. Qed.

Lemma protected_gate_witness :
  app demo_env (mk_request None GetChats) demo_ctx busy_db
  = (busy_db, res_error 401 "Unauthorized")
  /\ app demo_env (mk_request (Some "forged") DeleteChats) demo_ctx busy_db
     = (busy_db, res_error 403 "Forbidden")
  /\ app demo_env (as_alice GetMe) demo_ctx busy_db
     = (busy_db, res_json (json_of_session alice)).
Proof.
  split; [|split].
  - apply (protected_gate demo_env (mk_request None GetChats) demo_ctx busy_db
             eq_refl).
    now left.
  - apply (protected_gate demo_env (mk_request (Some "forged") DeleteChats)
             demo_ctx busy_db eq_refl) with (token := "forged");
      [reflexivity|discriminate|reflexivity].
  - apply (protected_gate demo_env (as_alice GetMe) demo_ctx busy_db eq_refl)
      with (token := "tok-alice") (user := alice);
      [reflexivity|discriminate|reflexivity].
Defined.

Lemma lists_in_timestamp_order_witness :
  (exists rows,
      app demo_env (as_alice GetChats) demo_ctx busy_db
      = (busy_db, res_json (JArr (map json_of_chat rows)))
      /\ StronglySorted (key_le c_timestamp) rows
      /\ Permutation rows
           [mk_chat 1 1 "user" "hi" "2026-01-05 09:31:00";
            mk_chat 3 1 "bot" "hello" "2026-01-05 09:30:00"])
  /\ (exists rows,
        app demo_env (as_alice GetMoods) demo_ctx busy_db
        = (busy_db, res_json (JArr (map json_of_mood rows)))
        /\ StronglySorted (key_le m_timestamp) rows
        /\ Permutation rows
             [mk_mood 1 1 "Happy" "2026-01-05 09:31:00";
              mk_mood 2 1 "Sad" "2026-01-05 09:30:00"]).
Proof.
  split.
  - exact (proj1 (lists_in_timestamp_order demo_env (as_alice GetChats) demo_ctx
                    busy_db alice eq_refl) eq_refl).
  - exact (proj2 (lists_in_timestamp_order demo_env (as_alice GetMoods) demo_ctx
                    busy_db alice eq_refl) eq_refl).
Defined.

Lemma clear_removes_own_rows_only_witness :
  exists db',
    app demo_env (as_alice DeleteChats) demo_ctx busy_db = (db', success_ack)
    /\ (forall r, In r (chats db') <-> In r (chats busy_db) /\ c_user_id r <> 1)
    /\ select_chats db' 1 = []
    /\ (forall who, who <> 1 ->
          filter (fun r => c_user_id r =? who) (chats db')
          = filter (fun r => c_user_id r =? who) (chats busy_db))
    /\ (forall who, who <> 1 -> select_chats db' who = select_chats busy_db who)
    /\ users db' = users busy_db /\ moods db' = moods busy_db.
Proof.
  exact (clear_removes_own_rows_only demo_env (as_alice DeleteChats) demo_ctx
           busy_db alice eq_refl eq_refl).
Defined.

Lemma appended_message_is_listed_witness :
  exists db1 rows row,
    app demo_env (as_alice (PostChats (mk_chat_body "user" "**I** feel <ok>" [])))
      demo_ctx busy_db
    = (db1, success_ack)
    /\ app demo_env (as_alice GetChats) later_ctx db1
       = (db1, res_json (JArr (map json_of_chat rows)))
    /\ In row rows
    /\ c_role row = "user" /\ c_content row = "**I** feel <ok>"
    /\ json_get "role" (json_of_chat row) = Some (JStr "user")
    /\ json_get "content" (json_of_chat row)
       = Some (JStr "**I** feel <ok>").
Proof.
  exact (appended_message_is_listed demo_env
           (as_alice (PostChats (mk_chat_body "user" "**I** feel <ok>" [])))
           (as_alice GetChats) demo_ctx later_ctx busy_db alice alice
           (mk_chat_body "user" "**I** feel <ok>" [])
           eq_refl eq_refl eq_refl eq_refl eq_refl alice_in_busy_db).
Defined.

Lemma chats_listing_is_private_witness :
  (exists rows,
      app demo_env (as_alice GetChats) later_ctx busy_db
      = (busy_db, res_json (JArr (map json_of_chat rows)))
      /\ forall r, In r rows -> c_user_id r = 1 /\ c_user_id r <> 2)
  /\ (exists row,
        app demo_env (as_alice GetChats) later_ctx
          (fst (app demo_env
                  (as_bob (PostChats (mk_chat_body "user" "from B" [])))
                  later_ctx
                  (fst (app demo_env
                          (as_alice
                             (PostChats (mk_chat_body "user" "from A" [])))
                          demo_ctx two_user_db))))
        = (fst (app demo_env
                  (as_bob (PostChats (mk_chat_body "user" "from B" [])))
                  later_ctx
                  (fst (app demo_env
                          (as_alice
                             (PostChats (mk_chat_body "user" "from A" [])))
                          demo_ctx two_user_db))),
           res_json (JArr [json_of_chat row]))
        /\ c_user_id row = 1
        /\ c_role row = "user" /\ c_content row = "from A").
Proof.
  assert (Hne : s_id alice <> s_id bob) by (simpl; discriminate).
  split.
  - exact (proj1 (chats_listing_is_private demo_env
                    (as_alice (PostChats (mk_chat_body "user" "from A" [])))
                    (as_bob (PostChats (mk_chat_body "user" "from B" [])))
                    (as_alice GetChats) demo_ctx later_ctx later_ctx busy_db
                    alice bob (mk_chat_body "user" "from A" [])
                    (mk_chat_body "user" "from B" [])
                    eq_refl eq_refl eq_refl eq_refl eq_refl eq_refl Hne)).
  - exact (proj2 (chats_listing_is_private demo_env
                    (as_alice (PostChats (mk_chat_body "user" "from A" [])))
                    (as_bob (PostChats (mk_chat_body "user" "from B" [])))
                    (as_alice GetChats) demo_ctx later_ctx later_ctx
                    two_user_db
                    alice bob (mk_chat_body "user" "from A" [])
                    (mk_chat_body "user" "from B" [])
                    eq_refl eq_refl eq_refl eq_refl eq_refl eq_refl Hne)
             alice_in_two_user_db bob_in_two_user_db
             eq_refl _ (or_introl eq_refl)).
Defined.

Lemma bot_mood_is_not_listed :
  let db1 := fst (app demo_env (as_alice (PostChats bot_turn)) demo_ctx one_user_db) in
  assoc "mood" (chat_extras bot_turn) = Some (JStr "Stressed")
  /\ app demo_env (as_alice GetChats) later_ctx db1
     = (db1,
        res_json
          (JArr [JObj [("id", JNum 1); ("user_id", JNum 1);
                       ("role", JStr "bot");
                       ("content", JStr "Take a slow breath.");
                       ("timestamp", JStr "2026-01-05 09:30:00")]]))
  /\ json_get "mood"
       (JObj [("id", JNum 1); ("user_id", JNum 1);
              ("role", JStr "bot");
              ("content", JStr "Take a slow breath.");
              ("timestamp", JStr "2026-01-05 09:30:00")])
     <> Some (JStr "Stressed").
Proof.
  split; [reflexivity|]. split; [reflexivity|]. simpl. discriminate.
Qed.

Lemma chat_rows_carry_no_mood_witness :
  (forall extras,
      app demo_env (as_alice (PostChats (mk_chat_body "bot" "Take a slow breath."
                                      extras)))
        demo_ctx one_user_db
      = app demo_env (as_alice (PostChats bot_turn)) demo_ctx one_user_db)
  /\ exists items,
      app demo_env (as_bob GetChats) later_ctx busy_db
      = (busy_db, res_json (JArr items))
      /\ Forall (fun j =>
                   json_keys j
                   = ["id"; "user_id"; "role"; "content"; "timestamp"]
                   /\ json_get "mood" j = None) items.
Proof.
  exact (chat_rows_carry_no_mood demo_env (as_alice (PostChats bot_turn))
           (as_bob GetChats) demo_ctx later_ctx one_user_db busy_db
           alice bob bot_turn eq_refl eq_refl eq_refl eq_refl).
Defined.

Lemma empty_role_is_inserted :
  app demo_env (as_alice (PostChats (mk_chat_body "" "hello" []))) demo_ctx
    one_user_db
  = ({| users := users one_user_db; users_seq := 1;
        moods := []; moods_seq := 0;
        chats := [mk_chat 1 1 "" "hello" "2026-01-05 09:30:00"];
        chats_seq := 1 |},
     success_ack)
  /\ chats (fst (app demo_env (as_alice (PostChats (mk_chat_body "" "hello" [])))
                   demo_ctx one_user_db))
     <> chats one_user_db.
Proof. split; [reflexivity|]. simpl. discriminate. Qed.

Lemma post_chats_validates_nothing_witness :
  exists db' id,
    app demo_env (as_alice (PostChats (mk_chat_body "" "hello" []))) demo_ctx
      busy_db
    = (db', success_ack)
    /\ chats db'
       = (chats busy_db
          ++ [mk_chat id 1 "" "hello" "2026-01-05 09:30:00"])%list
    /\ users db' = users busy_db /\ moods db' = moods busy_db.
Proof.
  exact (post_chats_validates_nothing demo_env
           (as_alice (PostChats (mk_chat_body "" "hello" []))) demo_ctx
           busy_db alice (mk_chat_body "" "hello" []) eq_refl eq_refl
           alice_in_busy_db).
Defined.

Lemma inserted_rows_owned_by_session_witness :
  ((forall r,
       In r (chats (fst (app demo_env
                           (as_bob (PostChats
                                      (mk_chat_body "user" "mine"
                                         [("user_id", JNum 1);
                                          ("timestamp",
                                           JStr "1999-01-01 00:00:00")])))
                           demo_ctx busy_db))) ->
       In r (chats busy_db) \/ c_user_id r = 2)
   /\ (forall extras,
         app demo_env (as_bob (PostChats (mk_chat_body "user" "mine" extras)))
           demo_ctx busy_db
         = app demo_env
             (as_bob (PostChats
                        (mk_chat_body "user" "mine"
                           [("user_id", JNum 1);
                            ("timestamp", JStr "1999-01-01 00:00:00")])))
             demo_ctx busy_db)
   /\ exists db' id,
       app demo_env
         (as_bob (PostChats
                    (mk_chat_body "user" "mine"
                       [("user_id", JNum 1);
                        ("timestamp", JStr "1999-01-01 00:00:00")])))
         demo_ctx busy_db
       = (db', success_ack)
       /\ chats db'
          = (chats busy_db
             ++ [mk_chat id 2 "user" "mine" "2026-01-05 09:30:00"])%list)
  /\ ((forall r,
         In r (moods (fst (app demo_env
                             (as_bob (PostMoods
                                        (mk_mood_body "Happy"
                                           [("user_id", JNum 1)])))
                             demo_ctx busy_db))) ->
         In r (moods busy_db) \/ m_user_id r = 2)
      /\ exists db' id,
          app demo_env
            (as_bob (PostMoods (mk_mood_body "Happy" [("user_id", JNum 1)])))
            demo_ctx busy_db
          = (db', success_ack)
          /\ moods db'
             = (moods busy_db
                ++ [mk_mood id 2 "Happy" "2026-01-05 09:30:00"])%list).
Proof.
  destruct (proj1 (inserted_rows_owned_by_session demo_env
                     (as_bob (PostChats
                                (mk_chat_body "user" "mine"
                                   [("user_id", JNum 1);
                                    ("timestamp",
                                     JStr "1999-01-01 00:00:00")])))
                     demo_ctx busy_db bob (bob_verified _))
              (mk_chat_body "user" "mine"
                 [("user_id", JNum 1);
                  ("timestamp", JStr "1999-01-01 00:00:00")])
              eq_refl)
    as (Hown & _ & Hextras & Hins).
  destruct (proj2 (inserted_rows_owned_by_session demo_env
                     (as_bob (PostMoods (mk_mood_body "Happy"
                                           [("user_id", JNum 1)])))
                     demo_ctx busy_db bob (bob_verified _))
              (mk_mood_body "Happy" [("user_id", JNum 1)]) eq_refl)
    as (Hown' & _ & _ & Hins').
  split; [split; [exact Hown|split; [exact Hextras|]]|split; [exact Hown'|]].
  - exact (Hins bob_in_busy_db).
  - exact (Hins' bob_in_busy_db).
Defined.

End Examples.

(** * Further properties of the server *)

(** ** What one request can do to the store *)

Section StoreFacts.
Context {L : Libs} (env : option string).

(** Every request either leaves the store as it is or runs exactly one
    statement, and in that case it is answered with status 200. *)
Lemma app_cases req c db :
  fst (app env req c db) = db
  \/ (exists b id,
        call req = PostSignup b
        /\ insert_user db (email b) (bcrypt_hash (password b) 10 (salt c))
             (name b)
           = Some (fst (app env req c db), id)
        /\ status (snd (app env req c db)) = 200)
  \/ (exists u b,
        authenticateToken env req = Next u /\ call req = PostMoods b
        /\ app env req c db
           = (add_mood db (now c) (s_id u) (mood b), success_ack))
  \/ (exists u b,
        authenticateToken env req = Next u /\ call req = PostChats b
        /\ app env req c db
           = (add_chat db (now c) (s_id u) (role b) (content b),
              success_ack))
  \/ (exists u,
        authenticateToken env req = Next u /\ call req = DeleteChats
        /\ app env req c db = (delete_chats db (s_id u), success_ack)).
Proof.
  unfold app. destruct (call req) as [b|b| | | |b| |b| ] eqn:Hc.
  - unfold signup.
    destruct (insert_user db (email b) _ (name b)) as [[db' id]|] eqn:Hi.
    + right; left. exists b, id. now repeat split.
    + now left.
  - left. unfold login. destruct (select_user_by_email db (email b)); simpl;
      [destruct (negb _)|]; reflexivity.
  - now left.
  - left. unfold protected. now destruct (authenticateToken env req).
  - left. unfold protected. now destruct (authenticateToken env req).
  - unfold protected. destruct (authenticateToken env req) as [r|u] eqn:Ha.
    + now left.
    + unfold post_moods, insert_mood.
      destruct (user_exists db (s_id u)) eqn:Hu; [|now left].
      right; right; left. now exists u, b.
  - left. unfold protected. now destruct (authenticateToken env req).
  - unfold protected. destruct (authenticateToken env req) as [r|u] eqn:Ha.
    + now left.
    + unfold post_chats, insert_chat.
      destruct (user_exists db (s_id u)) eqn:Hu; [|now left].
      right; right; right; left. now exists u, b.
  - unfold protected. destruct (authenticateToken env req) as [r|u] eqn:Ha.
    + now left.
    + right; right; right; right. now exists u.
Qed.

(** X1. Login, logout and the three GET routes never change the store,
    whatever the cookie and the body, and whether or not they succeed. *)
Theorem read_routes_keep_store req c db :
  writes (call req) = false ->
  fst (app env req c db) = db.
Proof.
  intros Hw.
  destruct (app_cases req c db)
    as [H|[(b & id & Hc & _)|[(u & b & _ & Hc & _)|[(u & b & _ & Hc & _)
        |(u & _ & Hc & _)]]]];
    [exact H|..]; rewrite Hc in Hw; discriminate.
Qed.

(** X2. A request that is answered with a status other than 200 has left
    the store exactly as it was: a rejected signup, a failed login and a
    request stopped by the middleware write nothing. *)
Theorem failed_request_keeps_store req c db :
  status (snd (app env req c db)) <> 200 ->
  fst (app env req c db) = db.
Proof.
  intros Hs.
  destruct (app_cases req c db)
    as [H|[(b & id & _ & _ & H)|[(u & b & _ & _ & H)|[(u & b & _ & _ & H)
        |(u & _ & _ & H)]]]];
    [exact H|now elim Hs|..]; rewrite H in Hs; now elim Hs.
Qed.

(** X3. The secret the tokens are signed and verified with is never the
    empty string: it is [process.env.JWT_SECRET] when that is set and not
    empty, and the built-in default in every other case. *)
Theorem JWT_SECRET_never_empty (e : option string) :
  JWT_SECRET e <> ""
  /\ (forall s, e = Some s -> s <> "" -> JWT_SECRET e = s)
  /\ (e = None \/ e = Some "" -> JWT_SECRET e = "super-secret-key").
Proof.
  unfold JWT_SECRET. split; [|split].
  - destruct e as [s|]; [|discriminate].
    destruct (String.eqb_spec s ""); [discriminate|assumption].
  - intros s -> Hs. apply String.eqb_neq in Hs. now rewrite Hs.
  - now intros [-> | ->].
Qed.

(** *** Rowids *)

Lemma fold_max_ge_seq (seq : Z) (ids : list Z) : seq <= fold_right Z.max seq ids.
Proof. induction ids as [|i ids IH]; simpl; lia. Qed.

Lemma fold_max_ge_id (seq : Z) (ids : list Z) (i : Z) :
  In i ids -> i <= fold_right Z.max seq ids.
Proof.
  induction ids as [|j ids IH]; simpl; [tauto|].
  intros [->|H]; [lia|]. specialize (IH H). lia.
Qed.

Lemma fresh_rowid_above (seq : Z) (ids : list Z) :
  seq < fresh_rowid seq ids /\ forall i, In i ids -> i < fresh_rowid seq ids.
Proof.
  unfold fresh_rowid. split.
  - pose proof (fold_max_ge_seq seq ids). lia.
  - intros i Hi. pose proof (fold_max_ge_id seq ids i Hi). lia.
Qed.

Lemma rowids_ok_insert (seq : Z) (ids : list Z) :
  rowids_ok seq ids ->
  rowids_ok (fresh_rowid seq ids) (ids ++ [fresh_rowid seq ids]).
Proof.
  intros (H0 & Hnd & Hall).
  destruct (fresh_rowid_above seq ids) as [Hseq Hids].
  split; [lia|]. split.
  - eapply Permutation_NoDup; [apply Permutation_cons_append|].
    constructor; [|exact Hnd].
    intros Hin. specialize (Hids _ Hin). lia.
  - apply Forall_app. split.
    + eapply Forall_impl; [|exact Hall]. simpl. intros; lia.
    + constructor; [lia|constructor].
Qed.

Lemma rowids_ok_filter {A : Type} (id : A -> Z) (keep : A -> bool)
  (seq : Z) (rows : list A) :
  rowids_ok seq (map id rows) -> rowids_ok seq (map id (filter keep rows)).
Proof.
  intros (H0 & Hnd & Hall). split; [exact H0|].
  induction rows as [|r rows IH]; simpl in *; [split; constructor|].
  inversion Hnd as [|? ? Hnotin Hnd']; subst.
  inversion Hall as [|? ? Hr Hall']; subst.
  destruct (IH Hnd' Hall') as [IHnd IHall].
  destruct (keep r); simpl; [|now split].
  split; constructor; try assumption.
  intros Hin. apply Hnotin.
  apply in_map_iff in Hin. destruct Hin as [x [Hx Hin]].
  apply filter_In in Hin. apply in_map_iff. exists x. tauto.
Qed.

Lemma tables_ok_empty : tables_ok empty_db.
Proof.
  repeat split; simpl; try lia; constructor.
Qed.

(** One request keeps the rowid discipline and never lowers a sequence. *)
Lemma tables_ok_app req c db :
  tables_ok db ->
  tables_ok (fst (app env req c db))
  /\ users_seq db <= users_seq (fst (app env req c db))
  /\ moods_seq db <= moods_seq (fst (app env req c db))
  /\ chats_seq db <= chats_seq (fst (app env req c db)).
Proof.
  intros (Hu & Hm & Hc).
  destruct (app_cases req c db)
    as [H|[(b & id & _ & H & _)|[(u & b & _ & _ & H)|[(u & b & _ & _ & H)
        |(u & _ & _ & H)]]]].
  - rewrite H. repeat split; try lia; try apply Hu; try apply Hm; apply Hc.
  - unfold insert_user in H.
    destruct (existsb _ _); [discriminate|].
    injection H as H _. rewrite <- H. unfold tables_ok. simpl.
    destruct (fresh_rowid_above (users_seq db) (map u_id (users db))).
    split; [|lia].
    split; [|split; assumption].
    rewrite map_app. simpl. now apply rowids_ok_insert.
  - rewrite H. unfold tables_ok. simpl.
    destruct (fresh_rowid_above (moods_seq db) (map m_id (moods db))).
    split; [|lia].
    split; [assumption|]. split; [|assumption].
    rewrite map_app. simpl. now apply rowids_ok_insert.
  - rewrite H. unfold tables_ok. simpl.
    destruct (fresh_rowid_above (chats_seq db) (map c_id (chats db))).
    split; [|lia].
    split; [assumption|]. split; [assumption|].
    rewrite map_app. simpl. now apply rowids_ok_insert.
  - rewrite H. unfold tables_ok. simpl. split; [|lia].
    split; [assumption|]. split; [assumption|].
    now apply rowids_ok_filter.
Qed.

(** *** Users and moods only grow *)

Lemma grows_app req c db :
  (exists l, users (fst (app env req c db)) = (users db ++ l)%list)
  /\ (exists l, moods (fst (app env req c db)) = (moods db ++ l)%list).
Proof.
  destruct (app_cases req c db)
    as [H|[(b & id & _ & H & _)|[(u & b & _ & _ & H)|[(u & b & _ & _ & H)
        |(u & _ & _ & H)]]]].
  - rewrite H. split; exists []; now rewrite app_nil_r.
  - unfold insert_user in H.
    destruct (existsb _ _); [discriminate|].
    injection H as H _. rewrite <- H. simpl.
    split; [eexists; reflexivity|exists []; now rewrite app_nil_r].
  - rewrite H. simpl.
    split; [exists []; now rewrite app_nil_r|eexists; reflexivity].
  - rewrite H. simpl. split; exists []; now rewrite app_nil_r.
  - rewrite H. simpl. split; exists []; now rewrite app_nil_r.
Qed.

Lemma grows_steps db db' :
  steps env db db' ->
  (exists l, users db' = (users db ++ l)%list)
  /\ (exists l, moods db' = (moods db ++ l)%list).
Proof.
  induction 1 as [db|db db' req c _ [[lu Hu] [lm Hm]] _].
  - split; exists []; now rewrite app_nil_r.
  - destruct (grows_app req c db') as [[lu' Hu'] [lm' Hm']].
    split.
    + exists (lu ++ lu')%list. now rewrite Hu', Hu, app_assoc.
    + exists (lm ++ lm')%list. now rewrite Hm', Hm, app_assoc.
Qed.

(** *** Emails *)

Lemma emails_unique_app req c db :
  NoDup (map u_email (users db)) ->
  NoDup (map u_email (users (fst (app env req c db)))).
Proof.
  intros Hnd.
  destruct (app_cases req c db)
    as [H|[(b & id & _ & H & _)|[(u & b & _ & _ & H)|[(u & b & _ & _ & H)
        |(u & _ & _ & H)]]]]; try (rewrite H; exact Hnd).
  unfold insert_user in H.
  destruct (existsb _ _) eqn:E; [discriminate|].
  injection H as H _. rewrite <- H. simpl. rewrite map_app. simpl.
  eapply Permutation_NoDup; [apply Permutation_cons_append|].
  constructor; [|exact Hnd].
  intros Hin. apply in_map_iff in Hin. destruct Hin as [x [Hx Hin]].
  assert (Ht : existsb (fun u => (u_email u =? email b)%string) (users db)
               = true).
  { apply existsb_exists. exists x. split; [exact Hin|].
    now apply String.eqb_eq. }
  congruence.
Qed.

Lemma emails_unique_steps db db' :
  steps env db db' ->
  NoDup (map u_email (users db)) -> NoDup (map u_email (users db')).
Proof.
  induction 1 as [db|db db' req c _ IH _]; intros Hnd; [exact Hnd|].
  apply emails_unique_app. now apply IH.
Qed.

(** With distinct emails, the lookup by email finds the row itself. *)
Lemma find_unique_email (l : list user_row) (u : user_row) :
  NoDup (map u_email l) -> In u l ->
  find (fun x => (u_email x =? u_email u)%string) l = Some u.
Proof.
  induction l as [|x l IH]; simpl; [tauto|].
  intros Hnd [->|Hin].
  - now rewrite String.eqb_refl.
  - inversion Hnd as [|? ? Hnotin Hnd']; subst.
    destruct (String.eqb_spec (u_email x) (u_email u)) as [E|_].
    + elim Hnotin. rewrite E. now apply in_map.
    + now apply IH.
Qed.

(** X4. No sequence of requests deletes or rewrites a user or a mood
    entry: after it, [users] and [moods] are the old tables followed by
    the rows added since, so a registered id stays registered. *)
Theorem users_and_moods_only_grow db db' :
  steps env db db' ->
  (exists added, users db' = (users db ++ added)%list)
  /\ (exists added, moods db' = (moods db ++ added)%list)
  /\ (forall uid, registered db uid -> registered db' uid).
Proof.
  intros Hs. destruct (grows_steps db db' Hs) as [[lu Hu] [lm Hm]].
  split; [now exists lu|]. split; [now exists lm|].
  intros uid (u & Hin & Hid). exists u. split; [|exact Hid].
  rewrite Hu. apply in_or_app. now left.
Qed.

(** X5. Emails stay unique: if no two rows of [users] share an email, no
    sequence of requests makes two rows share one; then the lookup that
    login runs returns, for the email of any row, that very row. *)
Theorem emails_stay_unique db db' :
  NoDup (map u_email (users db)) ->
  steps env db db' ->
  NoDup (map u_email (users db'))
  /\ forall u, In u (users db') ->
               select_user_by_email db' (u_email u) = Some u.
Proof.
  intros Hnd Hs.
  assert (Hnd' : NoDup (map u_email (users db')))
    by now apply (emails_unique_steps db db').
  split; [exact Hnd'|].
  intros u Hin. unfold select_user_by_email. now apply find_unique_email.
Qed.

(** X6. [AUTOINCREMENT] over sequences of requests: started from tables
    whose rowids are distinct, at least 1 and at most the table's sequence,
    the server keeps them so, in the three tables, and no sequence ever
    decreases. *)
Theorem rowids_stay_distinct db db' :
  tables_ok db ->
  steps env db db' ->
  tables_ok db'
  /\ users_seq db <= users_seq db'
  /\ moods_seq db <= moods_seq db'
  /\ chats_seq db <= chats_seq db'.
Proof.
  intros Hok Hs.
  induction Hs as [db|db db' req c _ IH _].
  - repeat split; try lia; apply Hok.
  - destruct (IH Hok) as (Hok' & ? & ? & ?).
    destruct (tables_ok_app req c db' Hok') as (Hok'' & ? & ? & ?).
    split; [exact Hok''|lia].
Qed.

(** X7. The id of a cleared message is not given out again: when a user
    clears the chats and a registered user then posts, the new row's id is
    larger than the id of every row the table held before the clearing,
    the deleted ones included. *)
Theorem cleared_ids_not_reused reqD reqP cD cP db u v b :
  tables_ok db ->
  authenticateToken env reqD = Next u -> call reqD = DeleteChats ->
  authenticateToken env reqP = Next v -> call reqP = PostChats b ->
  registered db (s_id v) ->
  exists id,
    chats (fst (app env reqP cP (fst (app env reqD cD db))))
    = (filter (fun r => negb (c_user_id r =? s_id u)) (chats db)
       ++ [mk_chat id (s_id v) (role b) (content b) (now cP)])%list
    /\ forall old, In old (chats db) -> c_id old < id.
Proof.
  intros (_ & _ & (_ & _ & Hall)) HaD HcD HaP HcP Hreg.
  rewrite (app_delete_chats env reqD cD db u HaD HcD). simpl.
  rewrite (app_post_chats env reqP cP (delete_chats db (s_id u)) v b HaP HcP
             Hreg).
  simpl.
  eexists. split; [reflexivity|].
  intros old Hold.
  destruct (fresh_rowid_above (chats_seq db)
              (map c_id
                 (filter (fun r => negb (c_user_id r =? s_id u)) (chats db))))
    as [Hseq _].
  rewrite Forall_forall in Hall.
  specialize (Hall (c_id old) (in_map c_id _ _ Hold)). lia.
Qed.

(** *** Accounts *)

Lemma find_app_some {A : Type} (p : A -> bool) (l l' : list A) (x : A) :
  find p l = Some x -> find p (l ++ l') = Some x.
Proof.
  induction l as [|y l IH]; simpl; [discriminate|].
  destruct (p y); [trivial|exact IH].
Qed.

Lemma find_app_none {A : Type} (p : A -> bool) (l l' : list A) :
  existsb p l = false -> find p (l ++ l') = find p l'.
Proof.
  induction l as [|y l IH]; simpl; [reflexivity|].
  destruct (p y); simpl; [discriminate|exact IH].
Qed.

Lemma select_user_steps db db' e u :
  steps env db db' ->
  select_user_by_email db e = Some u -> select_user_by_email db' e = Some u.
Proof.
  intros Hs Hf. destruct (grows_steps db db' Hs) as [[l Hl] _].
  unfold select_user_by_email in *. rewrite Hl. now apply find_app_some.
Qed.

(** X8. An account keeps working: after a signup with a fresh email,
    and whatever requests the server answers in between, a login with the
    same email and password answers 200 with the profile the signup
    returned and sets a cookie signed for that profile, provided
    [bcrypt.compare] accepts the password against the hash [bcrypt.hash]
    made of it.  The [name] in the login body plays no part. *)
Theorem login_after_signup t c b db db' t' c' n' :
  (forall u, In u (users db) -> u_email u <> email b) ->
  bcrypt_compare (password b) (bcrypt_hash (password b) 10 (salt c)) = true ->
  steps env (fst (app env (mk_request t (PostSignup b)) c db)) db' ->
  exists id,
    payload (snd (app env (mk_request t (PostSignup b)) c db))
    = profile id (email b) (name b)
    /\ app env
         (mk_request t' (PostLogin (mk_auth_form (email b) (password b) n')))
         c' db'
       = (db',
          {| status := 200;
             payload := profile id (email b) (name b);
             cookie_ops :=
               [session_cookie
                  (jwt_sign (mk_session id (email b) (name b) (clock c'))
                     (JWT_SECRET env))] |}).
Proof.
  intros Hfresh Hcmp Hs.
  pose proof (existsb_email_false db (email b) Hfresh) as Hex.
  assert (Hsel : select_user_by_email
                   (fst (app env (mk_request t (PostSignup b)) c db))
                   (email b)
                 = Some (mk_user
                           (fresh_rowid (users_seq db) (map u_id (users db)))
                           (email b)
                           (bcrypt_hash (password b) 10 (salt c)) (name b))).
  { unfold app, signup, insert_user, select_user_by_email. simpl.
    rewrite Hex. simpl. rewrite (find_app_none _ _ _ Hex). simpl.
    now rewrite String.eqb_refl. }
  exists (fresh_rowid (users_seq db) (map u_id (users db))). split.
  - unfold app, signup, insert_user. simpl. now rewrite Hex.
  - apply (select_user_steps _ db' _ _ Hs) in Hsel.
    unfold app, login. simpl. rewrite Hsel. simpl. now rewrite Hcmp.
Qed.

(** X9. An email, once registered, stays taken: whatever requests the
    server answers afterwards, a signup with that email is answered 400
    [{error: "Email already exists"}] and writes nothing, whatever the
    password and the name. *)
Theorem registered_email_stays_taken db db' u t c b :
  In u (users db) -> email b = u_email u ->
  steps env db db' ->
  app env (mk_request t (PostSignup b)) c db'
  = (db', res_error 400 "Email already exists").
Proof.
  intros Hin He Hs. destruct (grows_steps db db' Hs) as [[l Hl] _].
  unfold app, signup, insert_user. simpl.
  rewrite (existsb_email_true db' (email b)); [reflexivity|].
  exists u. split; [|now symmetry].
  rewrite Hl. apply in_or_app. now left.
Qed.

(** X10. A login answers 200 only for a row of [users] that has the
    email of the request and whose stored hash [bcrypt.compare] accepts
    for the password of the request; the response is then that row's
    profile, without the hash, and the store is unchanged. *)
Theorem login_needs_matching_password t c b db :
  status (snd (app env (mk_request t (PostLogin b)) c db)) = 200 ->
  exists u,
    In u (users db) /\ u_email u = email b
    /\ bcrypt_compare (password b) (u_password u) = true
    /\ app env (mk_request t (PostLogin b)) c db
       = (db,
          {| status := 200;
             payload := JObj [("id", JNum (u_id u)); ("email", JStr (u_email u));
                              ("name", JStr (u_name u))];
             cookie_ops :=
               [SetCookie "token"
                  (jwt_sign (mk_session (u_id u) (u_email u) (u_name u)
                               (clock c)) (JWT_SECRET env))
                  true true "none"] |}).
Proof.
  unfold app, login. simpl.
  destruct (select_user_by_email db (email b)) as [u|] eqn:Hsel;
    [|simpl; discriminate].
  destruct (bcrypt_compare (password b) (u_password u)) eqn:Hcmp;
    simpl; [|discriminate].
  intros _. exists u. apply find_some in Hsel. destruct Hsel as [Hin He].
  apply String.eqb_eq in He. now repeat split.
Qed.

(** X11. The cookie a signup sets authenticates as the new user: if
    [jwt.sign] returns a non-empty token that [jwt.verify] decodes back to
    the signed payload, then a request carrying that token passes the
    middleware on every protected route, with the new row's id, email and
    name as [req.user]; GET /api/auth/me answers with them and the issue
    time. *)
Theorem signup_cookie_authenticates t c b db s token :
  s = mk_session (fresh_rowid (users_seq db) (map u_id (users db)))
        (email b) (name b) (clock c) ->
  token = jwt_sign s (JWT_SECRET env) ->
  (forall u, In u (users db) -> u_email u <> email b) ->
  token <> "" ->
  jwt_verify token (JWT_SECRET env) = Some s ->
  cookie_ops (snd (app env (mk_request t (PostSignup b)) c db))
  = [SetCookie "token" token true true "none"]
  /\ registered (fst (app env (mk_request t (PostSignup b)) c db)) (s_id s)
  /\ (forall a c' db', is_protected a = true ->
        app env (mk_request (Some token) a) c' db' = handler_of env a c' s db')
  /\ (forall c' db',
        app env (mk_request (Some token) GetMe) c' db'
        = (db', res_json (JObj [("id", JNum (s_id s));
                                ("email", JStr (email b));
                                ("name", JStr (name b));
                                ("iat", JNum (clock c))]))).
Proof.
  intros -> -> Hfresh Hne Hv.
  pose proof (existsb_email_false db (email b) Hfresh) as Hex.
  assert (Ha : forall a,
             authenticateToken env
               (mk_request
                  (Some (jwt_sign
                           (mk_session
                              (fresh_rowid (users_seq db) (map u_id (users db)))
                              (email b) (name b) (clock c)) (JWT_SECRET env)))
                  a)
             = Next (mk_session
                       (fresh_rowid (users_seq db) (map u_id (users db)))
                       (email b) (name b) (clock c))).
  { intros a. unfold authenticateToken. simpl.
    apply String.eqb_neq in Hne. now rewrite Hne, Hv. }
  split; [|split; [|split]].
  - unfold app, signup, insert_user. simpl. now rewrite Hex.
  - unfold app, signup, insert_user. simpl. rewrite Hex. simpl.
    eexists. split; [apply in_or_app; right; now left|reflexivity].
  - intros a c' db' Hp. now apply app_next.
  - intros c' db'.
    rewrite (app_next env (mk_request (Some _) GetMe) c' db' _ eq_refl
               (Ha GetMe)).
    reflexivity.
Qed.

(** *** Listings *)

Lemma insert_by_snoc {A : Type} (key : A -> string) (y x : A) (l : list A) :
  (key y <=? key x)%string = true ->
  insert_by key y (l ++ [x]) = (insert_by key y l ++ [x])%list.
Proof.
  intros Hyx. induction l as [|z l IH]; simpl.
  - now rewrite Hyx.
  - destruct (key y <=? key z)%string; [reflexivity|now rewrite IH].
Qed.

Lemma order_by_snoc {A : Type} (key : A -> string) (x : A) (l : list A) :
  (forall y, In y l -> (key y <=? key x)%string = true) ->
  order_by key (l ++ [x]) = (order_by key l ++ [x])%list.
Proof.
  induction l as [|y l IH]; intros H; simpl; [reflexivity|].
  rewrite IH by (intros z Hz; apply H; now right).
  apply insert_by_snoc. apply H. now left.
Qed.

Lemma StronglySorted_filter {A : Type} (R : A -> A -> Prop) (p : A -> bool)
  (l : list A) :
  StronglySorted R l -> StronglySorted R (filter p l).
Proof.
  induction 1 as [|x l Hl IH Hx]; simpl; [constructor|].
  destruct (p x); [|exact IH].
  constructor; [exact IH|].
  apply Forall_forall. intros y Hy. apply filter_In in Hy.
  rewrite Forall_forall in Hx. now apply Hx.
Qed.

Lemma filter_add_mood db t uid m who :
  filter (fun x => m_user_id x =? who) (moods (add_mood db t uid m))
  = (filter (fun x => m_user_id x =? who) (moods db)
     ++ (if uid =? who
         then [mk_mood (fresh_rowid (moods_seq db) (map m_id (moods db)))
                 uid m t]
         else []))%list.
Proof.
  unfold add_mood. simpl. rewrite filter_app. simpl.
  now destruct (uid =? who).
Qed.

(** X12. What a user's two listings return changes only through that
    user's own requests: a request that does not pass the middleware as
    [uid] (another user's, an unauthenticated one, a signup, a login, a
    logout) leaves GET /api/chats and GET /api/moods of [uid] as they
    were. *)
Theorem others_listings_untouched req c db uid :
  (forall u, authenticateToken env req = Next u -> s_id u <> uid) ->
  select_chats (fst (app env req c db)) uid = select_chats db uid
  /\ select_moods (fst (app env req c db)) uid = select_moods db uid.
Proof.
  intros Hother.
  destruct (app_cases req c db)
    as [H|[(b & id & _ & H & _)|[(u & b & Ha & _ & H)|[(u & b & Ha & _ & H)
        |(u & Ha & _ & H)]]]].
  - now rewrite H.
  - unfold insert_user in H.
    destruct (existsb _ _); [discriminate|].
    injection H as H _. rewrite <- H. split; reflexivity.
  - rewrite H. simpl. split; [reflexivity|].
    unfold select_moods. rewrite filter_add_mood.
    specialize (Hother u Ha). apply Z.eqb_neq in Hother.
    now rewrite Hother, app_nil_r.
  - rewrite H. simpl. split; [|reflexivity].
    unfold select_chats. rewrite filter_add_chat.
    specialize (Hother u Ha). apply Z.eqb_neq in Hother.
    now rewrite Hother, app_nil_r.
  - rewrite H. simpl. split; [|reflexivity].
    unfold select_chats. rewrite filter_delete_other; [reflexivity|].
    specialize (Hother u Ha). congruence.
Qed.

(** X13. With a clock that has not gone backwards, a new entry is listed
    last: when no row of the caller carries a timestamp after the current
    one, the listing after POST /api/chats is the listing before followed
    by the new message, and likewise for POST /api/moods.  Rows written in
    the same second keep the order in which they were written. *)
Theorem new_entry_is_listed_last req c db u :
  authenticateToken env req = Next u ->
  registered db (s_id u) ->
  (forall b, call req = PostChats b ->
     (forall r, In r (chats db) -> c_user_id r = s_id u ->
                (c_timestamp r <=? now c)%string = true) ->
     exists id,
       select_chats (fst (app env req c db)) (s_id u)
       = (select_chats db (s_id u)
          ++ [mk_chat id (s_id u) (role b) (content b) (now c)])%list)
  /\ (forall b, call req = PostMoods b ->
       (forall r, In r (moods db) -> m_user_id r = s_id u ->
                  (m_timestamp r <=? now c)%string = true) ->
       exists id,
         select_moods (fst (app env req c db)) (s_id u)
         = (select_moods db (s_id u)
            ++ [mk_mood id (s_id u) (mood b) (now c)])%list).
Proof.
  intros Ha Hreg. split; intros b Hc Hclock; eexists.
  - rewrite (app_post_chats env req c db u b Ha Hc Hreg). simpl.
    unfold select_chats. rewrite filter_add_chat, Z.eqb_refl.
    apply order_by_snoc. intros r Hr. apply filter_In in Hr.
    destruct Hr as [Hin Hu]. apply Z.eqb_eq in Hu. simpl. now apply Hclock.
  - rewrite (app_post_moods env req c db u b Ha Hc Hreg). simpl.
    unfold select_moods. rewrite filter_add_mood, Z.eqb_refl.
    apply order_by_snoc. intros r Hr. apply filter_In in Hr.
    destruct Hr as [Hin Hu]. apply Z.eqb_eq in Hu. simpl. now apply Hclock.
Qed.

(** X14. [ORDER BY] does not disturb a table that is already in order:
    when the rows of [chats] (of [moods]) carry non-decreasing timestamps
    in the order they were inserted, every user's listing is that user's
    rows in insertion order. *)
Theorem in_order_table_lists_in_insertion_order db uid :
  (StronglySorted (key_le c_timestamp) (chats db) ->
   select_chats db uid = filter (fun r => c_user_id r =? uid) (chats db))
  /\ (StronglySorted (key_le m_timestamp) (moods db) ->
      select_moods db uid = filter (fun r => m_user_id r =? uid) (moods db)).
Proof.
  split; intros Hs.
  - unfold select_chats. apply order_by_fixed.
    now apply StronglySorted_filter.
  - unfold select_moods. apply order_by_fixed.
    now apply StronglySorted_filter.
Qed.

(** *** Clearing and logging out *)

Lemma filter_comm {A : Type} (p q : A -> bool) (l : list A) :
  filter p (filter q l) = filter q (filter p l).
Proof.
  induction l as [|x l IH]; simpl; [reflexivity|].
  destruct (p x) eqn:Hp, (q x) eqn:Hq; simpl;
    rewrite ?Hp, ?Hq, IH; reflexivity.
Qed.

(** X15. Clearing is idempotent and two users' clearings commute: DELETE
    /api/chats twice by one user leaves the store that one call leaves,
    and the calls of two users leave the same store in either order. *)
Theorem clears_commute reqA reqB c1 c2 c3 c4 db a b :
  authenticateToken env reqA = Next a -> call reqA = DeleteChats ->
  authenticateToken env reqB = Next b -> call reqB = DeleteChats ->
  fst (app env reqA c2 (fst (app env reqA c1 db))) = fst (app env reqA c1 db)
  /\ fst (app env reqB c2 (fst (app env reqA c1 db)))
     = fst (app env reqA c4 (fst (app env reqB c3 db))).
Proof.
  intros HaA HcA HaB HcB.
  rewrite !(app_delete_chats env reqA _ _ a HaA HcA).
  rewrite !(app_delete_chats env reqB _ _ b HaB HcB).
  rewrite ?(app_delete_chats env reqA _ _ a HaA HcA). simpl.
  unfold delete_chats; simpl. split; f_equal.
  - induction (chats db) as [|r l IH]; simpl; [reflexivity|].
    destruct (negb (c_user_id r =? s_id a)) eqn:E; simpl;
      [rewrite E; now f_equal|exact IH].
  - apply filter_comm.
Qed.

(** Logout revokes nothing on the server: with or without a cookie, POST
    /api/auth/logout answers 200 [{message: "Logged out"}], asks the
    browser to clear the [token] cookie, and leaves the store as it is, so
    a request that still carries the old token is answered afterwards
    exactly as it would have been before. *)
Lemma logout_revokes_nothing t c db :
  app env (mk_request t PostLogout) c db
  = (db, {| status := 200;
            payload := JObj [("message", JStr "Logged out")];
            cookie_ops := [ClearCookie "token"] |})
  /\ forall req c',
      app env req c' (fst (app env (mk_request t PostLogout) c db))
      = app env req c' db.
Proof. split; [reflexivity|]. intros req c'. reflexivity. Qed.

(** *** The foreign key *)

(** X16. A verified token is not enough to write: when the id in the
    token is no row of [users] (a token that outlived the database file,
    say), POST /api/chats and POST /api/moods are answered with status 500
    and store nothing. *)
Theorem unregistered_caller_writes_nothing req c db user :
  authenticateToken env req = Next user ->
  (exists b, call req = PostChats b) \/ (exists b, call req = PostMoods b) ->
  ~ registered db (s_id user) ->
  fst (app env req c db) = db /\ status (snd (app env req c db)) = 500.
Proof.
  intros Ha [[b Hc]|[b Hc]] Hr.
  - now rewrite (app_post_chats_unregistered env req c db user b Ha Hc Hr).
  - now rewrite (app_post_moods_unregistered env req c db user b Ha Hc Hr).
Qed.

End StoreFacts.

(** ** The further properties at concrete requests *)

Section MoreExamples.
#[local] Existing Instance demo_libs.

Lemma alice_is_known (a : api_call) (db : database) :
  registered db 1 -> known_caller demo_env (as_alice a) db.
Proof. intros Hr u H. vm_compute in H. injection H as <-. exact Hr. Qed.

Lemma bob_is_known (a : api_call) (db : database) :
  registered db 2 -> known_caller demo_env (as_bob a) db.
Proof. intros Hr u H. vm_compute in H. injection H as <-. exact Hr. Qed.

Lemma anonymous_is_known (a : api_call) (db : database) :
  known_caller demo_env (mk_request None a) db.
Proof. intros u H. vm_compute in H. discriminate H. Qed.

Lemma one_user_db_reached : steps demo_env empty_db one_user_db.
Proof.
  exact (steps_step demo_env empty_db empty_db
           (mk_request None (PostSignup (mk_auth_form "a@x.com" "pw" "A")))
           demo_ctx (steps_refl _ _) (anonymous_is_known _ _)).
Qed.

Lemma talk_db_follows : steps demo_env one_user_db talk_db.
Proof.
  unfold talk_db.
  apply steps_step; [apply steps_step; [apply steps_step|]|].
  - exact (steps_step demo_env one_user_db one_user_db
             (mk_request None (PostSignup (mk_auth_form "b@x.com" "pw" "B")))
             later_ctx (steps_refl _ _) (anonymous_is_known _ _)).
  - apply alice_is_known. eexists. split; [left; reflexivity|reflexivity].
  - apply bob_is_known. eexists.
    split; [right; left; reflexivity|reflexivity].
  - apply alice_is_known. eexists. split; [left; reflexivity|reflexivity].
Qed.

Lemma talk_db_reached : steps demo_env empty_db talk_db.
Proof.
  pose proof one_user_db_reached as H1.
  pose proof talk_db_follows as H2.
  induction H2 as [db|db db' req c _ IH Hk]; [exact H1|].
  apply steps_step; [now apply IH|exact Hk].
Qed.

Lemma tables_ok_busy : tables_ok busy_db.
Proof.
  repeat split; simpl; try lia;
    repeat (constructor; [simpl; intuition discriminate|]);
    repeat constructor; lia.
Qed.

Lemma read_routes_keep_store_witness :
  fst (app demo_env (as_alice GetChats) demo_ctx busy_db) = busy_db
  /\ fst (app demo_env
            (mk_request (Some "forged")
               (PostLogin (mk_auth_form "a@x.com" "pw" "")))
            later_ctx busy_db)
     = busy_db.
Proof.
  split.
  - exact (read_routes_keep_store demo_env (as_alice GetChats) demo_ctx
             busy_db eq_refl).
  - exact (read_routes_keep_store demo_env
             (mk_request (Some "forged")
                (PostLogin (mk_auth_form "a@x.com" "pw" "")))
             later_ctx busy_db eq_refl).
Defined.

Lemma failed_request_keeps_store_witness :
  fst (app demo_env
         (mk_request None (PostSignup (mk_auth_form "a@x.com" "pw2" "A2")))
         later_ctx one_user_db)
  = one_user_db
  /\ fst (app demo_env
            (mk_request (Some "forged") (PostChats (mk_chat_body "user" "x" [])))
            later_ctx one_user_db)
     = one_user_db.
Proof.
  split.
  - apply (failed_request_keeps_store demo_env
             (mk_request None (PostSignup (mk_auth_form "a@x.com" "pw2" "A2")))
             later_ctx one_user_db).
    simpl. discriminate.
  - apply (failed_request_keeps_store demo_env
             (mk_request (Some "forged")
                (PostChats (mk_chat_body "user" "x" [])))
             later_ctx one_user_db).
    simpl. discriminate.
Defined.

Lemma JWT_SECRET_never_empty_witness :
  JWT_SECRET (Some "") <> ""
  /\ JWT_SECRET (Some "s3cret") = "s3cret"
  /\ JWT_SECRET (Some "") = "super-secret-key"
  /\ JWT_SECRET None = "super-secret-key".
Proof.
  split; [exact (proj1 (JWT_SECRET_never_empty (Some "")))|].
  split; [apply (proj1 (proj2 (JWT_SECRET_never_empty (Some "s3cret"))));
          [reflexivity|discriminate]|].
  split.
  - apply (proj2 (proj2 (JWT_SECRET_never_empty (Some "")))). now right.
  - apply (proj2 (proj2 (JWT_SECRET_never_empty None))). now left.
Defined.

Lemma users_and_moods_only_grow_witness :
  (exists added, users talk_db = (users one_user_db ++ added)%list)
  /\ (exists added, moods talk_db = (moods one_user_db ++ added)%list)
  /\ (forall uid, registered one_user_db uid -> registered talk_db uid).
Proof.
  exact (users_and_moods_only_grow demo_env one_user_db talk_db
           talk_db_follows).
Defined.

Lemma emails_stay_unique_witness :
  NoDup (map u_email (users talk_db))
  /\ forall u, In u (users talk_db) ->
               select_user_by_email talk_db (u_email u) = Some u.
Proof.
  apply (emails_stay_unique demo_env one_user_db talk_db);
    [|exact talk_db_follows].
  simpl. constructor; [simpl; tauto|constructor].
Defined.

Lemma rowids_stay_distinct_witness :
  tables_ok talk_db
  /\ users_seq empty_db <= users_seq talk_db
  /\ moods_seq empty_db <= moods_seq talk_db
  /\ chats_seq empty_db <= chats_seq talk_db.
Proof.
  exact (rowids_stay_distinct demo_env empty_db talk_db tables_ok_empty
           talk_db_reached).
Defined.

Lemma cleared_ids_not_reused_witness :
  exists id,
    chats (fst (app demo_env
                  (as_alice (PostChats (mk_chat_body "user" "again" [])))
                  later_ctx
                  (fst (app demo_env (as_alice DeleteChats) demo_ctx busy_db))))
    = [mk_chat 2 2 "user" "yo" "2026-01-05 09:30:30";
       mk_chat id 1 "user" "again" "2026-01-05 09:31:00"]
    /\ forall old, In old (chats busy_db) -> c_id old < id.
Proof.
  refine (cleared_ids_not_reused demo_env (as_alice DeleteChats)
            (as_alice (PostChats (mk_chat_body "user" "again" [])))
            demo_ctx later_ctx busy_db alice alice
            (mk_chat_body "user" "again" [])
            tables_ok_busy eq_refl eq_refl eq_refl eq_refl _).
  eexists. split; [left; reflexivity|reflexivity].
Defined.

Lemma login_after_signup_witness :
  exists id,
    payload (snd (app demo_env
                    (mk_request None
                       (PostSignup (mk_auth_form "a@x.com" "pw" "A")))
                    demo_ctx empty_db))
    = profile id "a@x.com" "A"
    /\ app demo_env
         (mk_request None (PostLogin (mk_auth_form "a@x.com" "pw" "")))
         later_ctx talk_db
       = (talk_db,
          {| status := 200;
             payload := profile id "a@x.com" "A";
             cookie_ops :=
               [session_cookie
                  (jwt_sign (mk_session id "a@x.com" "A" (clock later_ctx))
                     (JWT_SECRET demo_env))] |}).
Proof.
  refine (login_after_signup demo_env None demo_ctx
            (mk_auth_form "a@x.com" "pw" "A") empty_db talk_db None later_ctx
            "" _ eq_refl talk_db_follows).
  intros u [].
Defined.

Lemma registered_email_stays_taken_witness :
  app demo_env
    (mk_request None (PostSignup (mk_auth_form "a@x.com" "other" "Mallory")))
    later_ctx talk_db
  = (talk_db, res_error 400 "Email already exists").
Proof.
  refine (registered_email_stays_taken demo_env one_user_db talk_db
            (mk_user 1 "a@x.com" "pw$s4lt" "A") None later_ctx
            (mk_auth_form "a@x.com" "other" "Mallory") _ eq_refl
            talk_db_follows).
  left. reflexivity.
Defined.

Lemma login_needs_matching_password_witness :
  exists u,
    In u (users busy_db) /\ u_email u = "b@x.com"
    /\ bcrypt_compare "pw" (u_password u) = true
    /\ app demo_env
         (mk_request None (PostLogin (mk_auth_form "b@x.com" "pw" "")))
         demo_ctx busy_db
       = (busy_db,
          {| status := 200;
             payload := JObj [("id", JNum (u_id u)); ("email", JStr (u_email u));
                              ("name", JStr (u_name u))];
             cookie_ops :=
               [SetCookie "token"
                  (jwt_sign (mk_session (u_id u) (u_email u) (u_name u)
                               (clock demo_ctx)) (JWT_SECRET demo_env))
                  true true "none"] |}).
Proof.
  exact (login_needs_matching_password demo_env None demo_ctx
           (mk_auth_form "b@x.com" "pw" "") busy_db eq_refl).
Defined.

Lemma signup_cookie_authenticates_witness :
  cookie_ops (snd (app demo_env
                     (mk_request None
                        (PostSignup (mk_auth_form "a@x.com" "pw" "A")))
                     issue_ctx empty_db))
  = [SetCookie "token" "tok-alice" true true "none"]
  /\ registered
       (fst (app demo_env
               (mk_request None (PostSignup (mk_auth_form "a@x.com" "pw" "A")))
               issue_ctx empty_db))
       1
  /\ (forall a c' db', is_protected a = true ->
        app demo_env (mk_request (Some "tok-alice") a) c' db'
        = handler_of demo_env a c' alice db')
  /\ (forall c' db',
        app demo_env (mk_request (Some "tok-alice") GetMe) c' db'
        = (db', res_json (JObj [("id", JNum 1); ("email", JStr "a@x.com");
                                ("name", JStr "A");
                                ("iat", JNum 1700000000)]))).
Proof.
  refine (signup_cookie_authenticates demo_env None issue_ctx
            (mk_auth_form "a@x.com" "pw" "A") empty_db alice "tok-alice"
            eq_refl eq_refl _ _ eq_refl).
  - intros u [].
  - discriminate.
Defined.

Lemma others_listings_untouched_witness :
  select_chats
    (fst (app demo_env (as_bob (PostChats (mk_chat_body "user" "more" [])))
            later_ctx busy_db)) 1
  = select_chats busy_db 1
  /\ select_moods
       (fst (app demo_env (as_bob (PostChats (mk_chat_body "user" "more" [])))
               later_ctx busy_db)) 1
     = select_moods busy_db 1.
Proof.
  apply (others_listings_untouched demo_env
           (as_bob (PostChats (mk_chat_body "user" "more" []))) later_ctx
           busy_db 1).
  intros u H. vm_compute in H. injection H as <-. simpl. discriminate.
Defined.

Lemma new_entry_is_listed_last_witness :
  (exists id,
      select_chats
        (fst (app demo_env (as_alice (PostChats (mk_chat_body "user" "bye" [])))
                later_ctx busy_db)) 1
      = (select_chats busy_db 1
         ++ [mk_chat id 1 "user" "bye" "2026-01-05 09:31:00"])%list)
  /\ (exists id,
        select_moods
          (fst (app demo_env (as_alice (PostMoods (mk_mood_body "Sad" [])))
                  later_ctx busy_db)) 1
        = (select_moods busy_db 1
           ++ [mk_mood id 1 "Sad" "2026-01-05 09:31:00"])%list).
Proof.
  assert (Hr : registered busy_db (s_id alice))
    by (eexists; split; [left; reflexivity|reflexivity]).
  split.
  - refine (proj1 (new_entry_is_listed_last demo_env
                     (as_alice (PostChats (mk_chat_body "user" "bye" [])))
                     later_ctx busy_db alice eq_refl Hr)
              (mk_chat_body "user" "bye" []) eq_refl _).
    intros r [<-|[<-|[<-|[]]]] _; reflexivity.
  - refine (proj2 (new_entry_is_listed_last demo_env
                     (as_alice (PostMoods (mk_mood_body "Sad" [])))
                     later_ctx busy_db alice eq_refl Hr)
              (mk_mood_body "Sad" []) eq_refl _).
    intros r [<-|[<-|[]]] _; reflexivity.
Defined.

Lemma in_order_table_lists_in_insertion_order_witness :
  select_chats talk_db 1
  = filter (fun r => c_user_id r =? 1) (chats talk_db)
  /\ select_moods talk_db 1
     = filter (fun r => m_user_id r =? 1) (moods talk_db).
Proof.
  split.
  - apply (proj1 (in_order_table_lists_in_insertion_order talk_db 1)).
    repeat constructor.
  - apply (proj2 (in_order_table_lists_in_insertion_order talk_db 1)).
    repeat constructor.
Defined.

Lemma clears_commute_witness :
  fst (app demo_env (as_alice DeleteChats) later_ctx
         (fst (app demo_env (as_alice DeleteChats) demo_ctx busy_db)))
  = fst (app demo_env (as_alice DeleteChats) demo_ctx busy_db)
  /\ fst (app demo_env (as_bob DeleteChats) later_ctx
            (fst (app demo_env (as_alice DeleteChats) demo_ctx busy_db)))
     = fst (app demo_env (as_alice DeleteChats) later_ctx
              (fst (app demo_env (as_bob DeleteChats) demo_ctx busy_db))).
Proof.
  exact (clears_commute demo_env (as_alice DeleteChats) (as_bob DeleteChats)
           demo_ctx later_ctx demo_ctx later_ctx busy_db alice bob
           eq_refl eq_refl eq_refl eq_refl).
Defined.

Lemma unregistered_caller_writes_nothing_witness :
  (fst (app demo_env (as_alice (PostChats (mk_chat_body "user" "hi" [])))
          demo_ctx empty_db)
   = empty_db
   /\ status (snd (app demo_env
                     (as_alice (PostChats (mk_chat_body "user" "hi" [])))
                     demo_ctx empty_db))
      = 500)
  /\ (fst (app demo_env (as_bob (PostMoods (mk_mood_body "Happy" [])))
             demo_ctx one_user_db)
      = one_user_db
      /\ status (snd (app demo_env
                        (as_bob (PostMoods (mk_mood_body "Happy" [])))
                        demo_ctx one_user_db))
         = 500).
Proof.
  split.
  - apply (unregistered_caller_writes_nothing demo_env
             (as_alice (PostChats (mk_chat_body "user" "hi" []))) demo_ctx
             empty_db alice (alice_verified _)).
    + left. eexists. reflexivity.
    + intros (u & [] & _).
  - apply (unregistered_caller_writes_nothing demo_env
             (as_bob (PostMoods (mk_mood_body "Happy" []))) demo_ctx
             one_user_db bob (bob_verified _)).
    + right. eexists. reflexivity.
    + intros (u & [<-|[]] & Hid). simpl in Hid. discriminate.
Defined.

End MoreExamples.
